(** * Research assistant: the literature client, the workflow sequencer and
      the submission endpoint, embedded from the Python sources

    - [Py]           the Python data the code handles: text, decoded JSON,
                     exceptions, and a state-and-exception monad;
    - [PubmedUtils]  [pubmed_utils.py]: [search_pubmed];
    - [Orchestrator] [orchestrator.py]: the three operations of
                     [ResearchOrchestrator] and [_collect_messages];
    - [Backend]      [backend.py]: [submit_paper]. *)

From Stdlib Require Import List ZArith NArith Lia Bool String Ascii DecimalString.
Import ListNotations.

Set Implicit Arguments.
Set Warnings "-register-all".

(* ================================================================== *)
(** ** Python data *)

Module Py.

(** A Python [str] is a sequence of Unicode code points; [len] and slicing
    count code points, so text is a list of them. *)
Definition char := N.
Definition str := list char.

(** The text of an ASCII literal of the source. *)
Definition lit (s : string) : str := map N_of_ascii (list_ascii_of_string s).
Arguments lit s%_string.

Definition nl : str := [10%N].   (* a line break inside a triple-quoted literal *)
Definition dq : str := [34%N].   (* the double quote character *)

Fixpoint str_eqb (a b : str) : bool :=
  match a, b with
  | [], [] => true
  | x :: a', y :: b' => N.eqb x y && str_eqb a' b'
  | _, _ => false
  end.

(** [s.startswith(p)] *)
Fixpoint startswith (p s : str) : bool :=
  match p, s with
  | [], _ => true
  | x :: p', y :: s' => N.eqb x y && startswith p' s'
  | _ :: _, [] => false
  end.

(** [p in s] on two strings: [p] occurs in [s] as a contiguous run. *)
Fixpoint str_in (p s : str) : bool :=
  startswith p s ||
  match s with
  | [] => false
  | _ :: s' => str_in p s'
  end.

(** [sep.join(parts)] *)
Fixpoint join (sep : str) (parts : list str) : str :=
  match parts with
  | [] => []
  | [x] => x
  | x :: rest => x ++ sep ++ join sep rest
  end.

(** [s.replace(old, new)] for a non-empty [old]: occurrences are replaced
    left to right and do not overlap; [skip] counts the characters of the
    occurrence just replaced that are still to be dropped. *)
Fixpoint replace_from (skip : nat) (old new s : str) : str :=
  match s with
  | [] => []
  | c :: s' =>
      match skip with
      | S k => replace_from k old new s'
      | O => if startswith old s
             then new ++ replace_from (List.length old - 1) old new s'
             else c :: replace_from 0 old new s'
      end
  end.

Definition replace (old new s : str) : str := replace_from 0 old new s.

(** [str(n)] for an [int]: decimal digits, with a minus sign when negative. *)
Definition str_of_int (z : Z) : str := lit (NilZero.string_of_int (Z.to_int z)).

(** What [json.loads] builds (and what the code puts into its own
    dictionaries).  A [dict] keeps its items in insertion order; decoded
    objects have distinct keys.  A [float] is kept as its binary64 bit
    pattern. *)
Inductive value : Type :=
| VNone
| VBool (b : bool)
| VInt (z : Z)
| VFloat (bits : Z)
| VStr (s : str)
| VList (items : list value)
| VDict (items : list (str * value)).

(** Exceptions, all of them subclasses of [Exception]. *)
Inductive exn : Type :=
| KeyError
| TypeError
| AttributeError
| Raised (cls msg : str)                 (* raised by a collaborator: requests, the team, the model client *)
| HTTPException (status : Z) (cause : exn).  (* fastapi; [detail] is [str(cause)] *)

(** Truth value of an object, as [if not x] tests it. *)
Definition truthy (v : value) : bool :=
  match v with
  | VNone => false
  | VBool b => b
  | VInt z => negb (Z.eqb z 0)
  | VFloat bits => negb (Z.eqb (Z.land bits (Z.ones 63)) 0)
  | VStr s => match s with [] => false | _ => true end
  | VList l => match l with [] => false | _ => true end
  | VDict kv => match kv with [] => false | _ => true end
  end.

Fixpoint lookup (k : str) (kv : list (str * value)) : option value :=
  match kv with
  | [] => None
  | (k', v) :: rest => if str_eqb k k' then Some v else lookup k rest
  end.

(** [obj.get(key, default)]: only a [dict] has the method. *)
Definition py_get (obj : value) (key : str) (default : value) : exn + value :=
  match obj with
  | VDict kv => inr (match lookup key kv with Some v => v | None => default end)
  | _ => inl AttributeError
  end.

(** [obj[key]] with a [str] key. *)
Definition getitem (obj : value) (key : str) : exn + value :=
  match obj with
  | VDict kv => match lookup key kv with Some v => inr v | None => inl KeyError end
  | _ => inl TypeError
  end.

(** [obj[:n]], the result given as the sequence a [for] loop over it walks:
    the items of a list, the one-character strings of a string.  Slicing a
    [dict] raises ([TypeError] up to Python 3.11, [KeyError] from 3.12). *)
Definition slice_to (n : nat) (obj : value) : exn + list value :=
  match obj with
  | VList l => inr (firstn n l)
  | VStr s => inr (map (fun c => VStr [c]) (firstn n s))
  | _ => inl TypeError
  end.

(** [key in obj] with a [str] key: a key of a dict, an item of a list, a
    substring of a string. *)
Definition py_in (key : str) (obj : value) : exn + bool :=
  match obj with
  | VDict kv => inr (match lookup key kv with Some _ => true | None => false end)
  | VList l => inr (existsb (fun v => match v with VStr s => str_eqb key s | _ => false end) l)
  | VStr s => inr (str_in key s)
  | _ => inl TypeError
  end.

(** The strings [sep.join(obj)] walks: the items of a list, the characters
    of a string, the keys of a dict; an item that is not a [str] is a
    [TypeError], and so is an object that cannot be iterated. *)
Fixpoint all_str (l : list value) : exn + list str :=
  match l with
  | [] => inr []
  | VStr s :: rest =>
      match all_str rest with
      | inr ss => inr (s :: ss)
      | inl e => inl e
      end
  | _ :: _ => inl TypeError
  end.

Definition str_items (obj : value) : exn + list str :=
  match obj with
  | VList l => all_str l
  | VStr s => inr (map (fun c => [c]) s)
  | VDict kv => inr (map fst kv)
  | _ => inl TypeError
  end.

(** *** Code that reads and writes a state and may raise *)

Definition M (St A : Type) : Type := St -> St * (exn + A).

Definition ret {St A} (a : A) : M St A := fun s => (s, inr a).
Definition raise {St A} (e : exn) : M St A := fun s => (s, inl e).
Definition bind {St A B} (c : M St A) (k : A -> M St B) : M St B :=
  fun s => match c s with
           | (s', inr a) => k a s'
           | (s', inl e) => (s', inl e)
           end.
(** A computation that touches no state. *)
Definition pure_of {St A} (r : exn + A) : M St A := fun s => (s, r).

(** The same for code without state. *)
Definition ebind {A B} (c : exn + A) (k : A -> exn + B) : exn + B :=
  match c with
  | inr a => k a
  | inl e => inl e
  end.

End Py.

Import Py.

Declare Scope py_scope.
Delimit Scope py_scope with py.
Notation "x <- c ;; k" := (bind c (fun x => k))
  (at level 61, c at next level, right associativity) : py_scope.
Notation "x <~ c ;; k" := (ebind c (fun x => k))
  (at level 61, c at next level, right associativity) : py_scope.

(* ================================================================== *)
(** ** pubmed_utils.py *)

Module PubmedUtils.

(** The two attributes of [config] the module reads. *)
Record config := { PUBMED_BASE_URL : str; PUBMED_EMAIL : value }.

(** What the code uses of a [requests] response: what [raise_for_status()]
    raises, if anything, and what [json()] returns or raises. *)
Record response := { raise_for_status : option exn; json : exn + value }.

(** The dictionary built for one paper. *)
Record paper := {
  pmid : str;
  title : value;
  authors : list value;
  journal : value;
  pubdate : value;
  link : str;
  doi : str
}.

(** [authors.append(author["name"])] for each author that has a name. *)
Fixpoint authors_loop (authors : list value) (first3 : list value) : exn + list value :=
  match first3 with
  | [] => inr authors
  | author :: rest =>
      (has_name <~ py_in (lit "name") author ;;
       if has_name : bool
       then name <~ getitem author (lit "name") ;; authors_loop (authors ++ [name]) rest
       else authors_loop authors rest)%py
  end.

(** [obj.replace("doi: ", "")]: only a [str] has the method. *)
Definition strip_doi (obj : value) : exn + str :=
  match obj with
  | VStr s => inr (replace (lit "doi: ") [] s)
  | _ => inl AttributeError
  end.

(** The body of the inner [try], lines 56-72. *)
Definition extract_paper (fetch_data : value) (paper_id : str) : exn + paper :=
  (result <~ getitem fetch_data (lit "result") ;;
   paper_data <~ getitem result paper_id ;;
   upstream <~ py_get paper_data (lit "authors") (VList []) ;;
   first3 <~ slice_to 3 upstream ;;
   authors <~ authors_loop [] first3 ;;
   title <~ py_get paper_data (lit "title") (VStr []) ;;
   journal <~ py_get paper_data (lit "fulljournalname") (VStr []) ;;
   pubdate <~ py_get paper_data (lit "pubdate") (VStr []) ;;
   elocationid <~ py_get paper_data (lit "elocationid") (VStr []) ;;
   doi <~ strip_doi elocationid ;;
   inr {| pmid := paper_id;
          title := title;
          authors := authors;
          journal := journal;
          pubdate := pubdate;
          link := lit "https://pubmed.ncbi.nlm.nih.gov/" ++ paper_id ++ lit "/";
          doi := doi |})%py.

Section Search.

(** The world outside, the network and the console, with
    [requests.get(url, params=...)] and [print(text)] on it; either may
    raise.  [str_of_exn e] is the text [str(e)] that an f-string puts for
    an exception. *)
Variable Net : Type.
Variable requests_get : str -> list (str * value) -> M Net response.
Variable cfg : config.
Variable print : str -> M Net unit.
Variable str_of_exn : exn -> str.

(** [requests.get], [raise_for_status()], [json()]: one network call. *)
Definition get_json (url : str) (params : list (str * value)) : M Net value :=
  (response <- requests_get url params ;;
   _ <- pure_of (match raise_for_status response with
                 | Some e => inl e
                 | None => inr tt
                 end) ;;
   pure_of (json response))%py.

Definition search_url : str := PUBMED_BASE_URL cfg ++ lit "esearch.fcgi".
Definition search_params (query : str) (max_results : Z) : list (str * value) :=
  [ (lit "db", VStr (lit "pubmed"));
    (lit "term", VStr query);
    (lit "retmax", VInt max_results);
    (lit "retmode", VStr (lit "json"));
    (lit "email", PUBMED_EMAIL cfg) ].

Definition fetch_url : str := PUBMED_BASE_URL cfg ++ lit "esummary.fcgi".
Definition fetch_params (ids : list str) : list (str * value) :=
  [ (lit "db", VStr (lit "pubmed"));
    (lit "id", VStr (join (lit ",") ids));
    (lit "retmode", VStr (lit "json"));
    (lit "email", PUBMED_EMAIL cfg) ].

(** Lines 21-35: the id-search phase. *)
Definition id_search (query : str) (max_results : Z) : M Net value :=
  (search_data <- get_json search_url (search_params query max_results) ;;
   esearchresult <- pure_of (py_get search_data (lit "esearchresult") (VDict [])) ;;
   pure_of (py_get esearchresult (lit "idlist") (VList [])))%py.

(** The inner handler, line 75, before its [continue]. *)
Definition paper_error_handler (paper_id : str) (e : exn) : M Net unit :=
  print (lit "Error processing paper " ++ paper_id ++ lit ": " ++ str_of_exn e).

(** The [for paper_id in ids] loop: a record whose extraction raises is
    reported and skipped.  What the report raises is not caught here and
    ends the loop. *)
Fixpoint papers_loop (fetch_data : value) (papers : list paper) (ids : list str)
  : M Net (list paper) :=
  match ids with
  | [] => ret papers
  | paper_id :: rest =>
      match extract_paper fetch_data paper_id with
      | inr paper => papers_loop fetch_data (papers ++ [paper]) rest
      | inl e =>
          (_ <- paper_error_handler paper_id e ;;
           papers_loop fetch_data papers rest)%py
      end
  end.

(** The body of the outer [try]. *)
Definition search_pubmed_try (query : str) (max_results : Z) : M Net (list paper) :=
  (ids <- id_search query max_results ;;
   if negb (truthy ids) then ret []
   else
     id_strs <- pure_of (str_items ids) ;;
     fetch_data <- get_json fetch_url (fetch_params id_strs) ;;
     papers_loop fetch_data [] id_strs)%py.

(** The outer handler, lines 80-82: it reports the exception and returns
    the empty list; what the report raises leaves the function. *)
Definition search_error_handler (e : exn) : M Net (list paper) :=
  (_ <- print (lit "PubMed search error: " ++ str_of_exn e) ;;
   ret [])%py.

(** [search_pubmed]: whatever the body raises goes to the outer handler. *)
Definition search_pubmed (query : str) (max_results : Z) : M Net (list paper) :=
  fun net =>
    match search_pubmed_try query max_results net with
    | (net', inr papers) => (net', inr papers)
    | (net', inl e) => search_error_handler e net'
    end.

End Search.

(** A network for tests: the outcomes of the calls to come, in order. *)
Definition canned := list (exn + response).

Definition canned_get (url : str) (params : list (str * value)) : M canned response :=
  fun net =>
    match net with
    | [] => ([], inl (Raised (lit "ConnectionError") []))
    | r :: rest => (rest, r)
    end.

Definition ok_json (v : value) : exn + response :=
  inr {| raise_for_status := None; json := inr v |}.

(** A console for tests that takes ASCII text only, as a standard output
    with the encoding [ascii] does, and the text of an exception: its
    message when a collaborator raised it. *)
Definition encode_error : exn :=
  Raised (lit "UnicodeEncodeError") (lit "'ascii' codec can't encode character").

Definition ascii_print (text : str) : M canned unit :=
  fun w =>
    if forallb (fun c => N.ltb c 128) text then (w, inr tt) else (w, inl encode_error).

Definition show_exn (e : exn) : str :=
  match e with
  | KeyError => lit "KeyError"
  | TypeError => lit "TypeError"
  | AttributeError => lit "AttributeError"
  | Raised _ msg => msg
  | HTTPException _ _ => lit "HTTPException"
  end.

(** What a call gave, the records if it returned. *)
Definition returned (r : exn + list paper) : list paper :=
  match r with
  | inr papers => papers
  | inl _ => []
  end.

Definition test_cfg : config :=
  {| PUBMED_BASE_URL := lit "https://eutils.ncbi.nlm.nih.gov/entrez/eutils/";
     PUBMED_EMAIL := VStr (lit "user@example.org") |}.

Definition idlist_doc (ids : list str) : value :=
  VDict [(lit "esearchresult", VDict [(lit "idlist", VList (map VStr ids))])].

Definition author (name : str) : value := VDict [(lit "name", VStr name)].

Definition summary (title : str) (authors : list value) : value :=
  VDict [(lit "title", VStr title); (lit "authors", VList authors);
         (lit "fulljournalname", VStr (lit "J")); (lit "pubdate", VStr (lit "2020"));
         (lit "elocationid", VStr (lit "doi: 10.1/x"))].

End PubmedUtils.

(* ================================================================== *)
(** ** orchestrator.py *)

Module Orchestrator.

(** The [content] attribute of a message: a string, or some other object,
    given by the text [str()] makes of it. *)
Inductive content : Type :=
| Text (s : str)
| Object (shown : str).

Definition py_str (c : content) : str :=
  match c with
  | Text s => s
  | Object shown => shown
  end.

(** What the stream of a run yields: objects that have a [content]
    attribute (the turns) and objects that have none. *)
Inductive item : Type :=
| WithContent (source : str) (c : content)
| WithoutContent.

(** An asynchronous stream, as an [async for] consumes it: it ends, yields
    an item and goes on, or raises. *)
Inductive stream : Type :=
| Done
| Yield (message : item) (rest : stream)
| Broken (e : exn).

Fixpoint stream_of (l : list item) : stream :=
  match l with
  | [] => Done
  | m :: rest => Yield m (stream_of rest)
  end.

(** The [async for] loop of [_collect_messages], [messages] being the list
    it appends to. *)
Fixpoint collect_loop (messages : list str) (s : stream) : exn + list str :=
  match s with
  | Done => inr messages
  | Broken e => inl e
  | Yield (WithContent _ c) rest => collect_loop (messages ++ [py_str c]) rest
  | Yield WithoutContent rest => collect_loop messages rest
  end.

Definition _collect_messages (s : stream) : exn + str :=
  (messages <~ collect_loop [] s ;; inr (join nl messages))%py.

(** [TextMessage(content=..., source=...)] *)
Record TextMessage := { content_of : str; source_of : str }.

Definition user_task (prompt : str) : TextMessage :=
  {| content_of := prompt; source_of := lit "user" |}.

(** The prompts, as the f-strings build them. *)
Definition lit_prompt (topic : str) (max_papers : Z) : str :=
  lit "Search for academic papers on: " ++ dq ++ topic ++ dq ++ nl ++
  lit "Find up to " ++ str_of_int max_papers ++ lit " relevant papers." ++ nl ++
  lit "Return DOI, title, authors, abstract, and link for each.".

Definition syn_prompt (literature_data : str) : str :=
  lit "Analyze and summarize these papers:" ++ nl ++
  literature_data ++ nl ++
  nl ++
  lit "Create concise summaries with key findings.".

Definition ext_prompt (synthesis_data : str) : str :=
  lit "Based on these summaries:" ++ nl ++
  synthesis_data ++ nl ++
  nl ++
  lit "Propose 5 future research extensions with:" ++ nl ++
  lit "- Title" ++ nl ++
  lit "- Description  " ++ nl ++
  lit "- One-line solution approach" ++ nl ++
  lit "- Difficulty level".

Definition explain_base (concept : str) : str :=
  lit "Explain this concept in simple terms: " ++ concept.

Definition context_block (context : str) : str :=
  nl ++ nl ++ lit "Context: " ++ context.

Definition explain_request : str :=
  nl ++ nl ++ lit "Provide: simple explanation, examples, analogies".

(** [if context:] holds for a string that is not empty; [None] and the
    empty string are both false. *)
Definition explain_prompt (concept : str) (context : option str) : str :=
  let prompt := explain_base concept in
  let prompt :=
    match context with
    | Some (c :: context') => prompt ++ context_block (c :: context')
    | Some [] | None => prompt
    end in
  prompt ++ explain_request.

Definition check_prompt (title content : str) : str :=
  lit "Check this paper's formatting:" ++ nl ++
  nl ++
  lit "Title: " ++ title ++ nl ++
  nl ++
  lit "Content:" ++ nl ++
  firstn 2000 content ++ lit "..." ++ nl ++
  nl ++
  lit "Provide:" ++ nl ++
  lit "1. Formatting score (0-100)" ++ nl ++
  lit "2. Missing sections" ++ nl ++
  lit "3. Recommendations" ++ nl ++
  lit "4. Overall assessment".

Section Team.

(** The team ([SelectorGroupChat]) with whatever state it keeps between
    runs, and [await team.run_stream(task=...)] on it.  The [print] calls
    with which the methods report their progress on the console are not
    part of the model: the statements about the methods are about the runs
    they make and about what they return. *)
Variable Team : Type.
Variable run_stream : TextMessage -> M Team stream.

(** The orchestrator: its team, and the tasks handed to the team so far,
    oldest first.  The code does not read [tasks]; it is kept for the
    statements about the order of the runs. *)
Record st := { team : Team; tasks : list TextMessage }.

Definition team_run_stream (task : TextMessage) : M st stream :=
  fun s =>
    let (team', r) := run_stream task (team s) in
    ({| team := team'; tasks := tasks s ++ [task] |}, r).

(** One coordinator run: [run_stream] on the prompt, then
    [_collect_messages] on what it returns. *)
Definition run_and_collect (prompt : str) : M st str :=
  (result <- team_run_stream (user_task prompt) ;;
   pure_of (_collect_messages result))%py.

Definition run_research_workflow (topic : str) (max_papers : Z) : M st value :=
  (literature_data <- run_and_collect (lit_prompt topic max_papers) ;;
   synthesis_data <- run_and_collect (syn_prompt literature_data) ;;
   extensions_data <- run_and_collect (ext_prompt synthesis_data) ;;
   ret (VDict [ (lit "topic", VStr topic);
                (lit "literature", VStr literature_data);
                (lit "synthesis", VStr synthesis_data);
                (lit "extensions", VStr extensions_data);
                (lit "status", VStr (lit "completed")) ]))%py.

Definition explain_concept (concept : str) (context : option str) : M st str :=
  run_and_collect (explain_prompt concept context).

Definition check_paper (title content : str) : M st value :=
  (feedback <- run_and_collect (check_prompt title content) ;;
   ret (VDict [ (lit "feedback", VStr feedback) ]))%py.

End Team.

(** A team for tests: the outcomes of the runs to come, in order; a run
    past the last one raises. *)
Definition script := list (exn + stream).

Definition scripted_run (task : TextMessage) : M script stream :=
  fun t =>
    match t with
    | [] => ([], inl (Raised (lit "RuntimeError") []))
    | r :: rest => (rest, r)
    end.

Definition says (source text : str) : item := WithContent source (Text text).

(** A stream that yields the items of [l] and then goes on as [rest]. *)
Fixpoint yields (l : list item) (rest : stream) : stream :=
  match l with
  | [] => rest
  | m :: l' => Yield m (yields l' rest)
  end.

Section Singleton.

(** What constructing an orchestrator works on (the configuration, the
    model client), the orchestrator objects, and the constructor
    [ResearchOrchestrator()], which may raise. *)
Variable World : Type.
Variable Instance : Type.
Variable ResearchOrchestrator : M World Instance.

(** The module-level variable [orchestrator], [None] at import. *)
Record globals := { world : World; orchestrator : option Instance }.

Definition get_orchestrator : M globals Instance :=
  fun g =>
    match orchestrator g with
    | None =>
        match ResearchOrchestrator (world g) with
        | (w, inr o) => ({| world := w; orchestrator := Some o |}, inr o)
        | (w, inl e) => ({| world := w; orchestrator := None |}, inl e)
        end
    | Some o => (g, inr o)
    end.

End Singleton.

End Orchestrator.

(* ================================================================== *)
(** ** backend.py *)

Module Backend.

(** [uuid.uuid4().int]: the 16 bytes of [os.urandom], read as one
    big-endian integer [random], with the variant and version bits set as
    [uuid.UUID(bytes=..., version=4)] sets them. *)
Definition uuid4_int (random : Z) : Z :=
  let int := Z.land random (Z.lnot (Z.shiftl 0xc000 48)) in
  let int := Z.lor int (Z.shiftl 0x8000 48) in
  let int := Z.land int (Z.lnot (Z.shiftl 0xf000 64)) in
  Z.lor int (Z.shiftl 4 76).

Definition hexdigit (d : Z) : char :=
  nth (Z.to_nat d) (lit "0123456789abcdef") 0%N.

(** [UUID.hex], that is ['%032x' % int]: the 32 hexadecimal digits of a
    128-bit integer, the most significant first. *)
Definition hex (int : Z) : str :=
  map (fun k => hexdigit (Z.land (Z.shiftr int (4 * Z.of_nat k)) 15)) (rev (seq 0 32)).

(** [str.upper()] on ASCII text: the letters [a]-[z] become [A]-[Z]. *)
Definition upper_char (c : char) : char :=
  if (97 <=? c)%N && (c <=? 122)%N then (c - 32)%N else c.

Definition upper (s : str) : str := map upper_char s.

(** Line 124. *)
Definition new_submission_id (random : Z) : str :=
  lit "SUB-" ++ upper (firstn 8 (hex (uuid4_int random))).

(** The pattern [SUB-] followed by exactly 8 characters out of [0-9A-F]. *)
Definition is_upper_hex (c : char) : bool :=
  ((48 <=? c)%N && (c <=? 57)%N) || ((65 <=? c)%N && (c <=? 70)%N).

Definition is_submission_id (s : str) : bool :=
  startswith (lit "SUB-") s &&
  Nat.eqb (List.length (skipn 4 s)) 8 &&
  forallb is_upper_hex (skipn 4 s).

Record PaperSubmitRequest := {
  req_title : str;
  req_authors : list str;
  req_content : str;
  req_professor_email : str
}.

(** The row [PaperSubmission(...)] is built with. *)
Record PaperSubmission := {
  submission_id : str;
  title : str;
  authors : str;
  content : str;
  professor_email : str;
  status : str;
  feedback : str
}.

Section Endpoint.

Variable Team : Type.
Variable run_stream : Orchestrator.TextMessage -> M Team Orchestrator.stream.

(** The session [next(get_db())] gives, with [db.add] and [db.commit]. *)
Variable Session : Type.
Variable db_add : PaperSubmission -> M Session unit.
Variable db_commit : M Session unit.

(** [repr] of a string, as [str()] of a dictionary shows its values. *)
Variable repr : str -> str.

(** What the endpoint works on: the orchestrator [get_orchestrator()]
    returns, and the database. *)
Record st := { orch : Orchestrator.st Team; db : Session }.

Definition with_orch {A} (c : M (Orchestrator.st Team) A) : M st A :=
  fun s => let (o, r) := c (orch s) in ({| orch := o; db := db s |}, r).

Definition with_db {A} (c : M Session A) : M st A :=
  fun s => let (d, r) := c (db s) in ({| orch := orch s; db := d |}, r).

(** [str(feedback)] for the one-item dictionary [check_paper] returns (the
    endpoint passes nothing else). *)
Definition str_of_feedback (feedback : value) : str :=
  match feedback with
  | VDict [(k, VStr text)] => lit "{'" ++ k ++ lit "': " ++ repr text ++ lit "}"
  | _ => []
  end.

(** The body of the [try]; [random] is the draw of [uuid4()] and [now]
    the text of [datetime.now().isoformat()]. *)
Definition submit_paper_try (request : PaperSubmitRequest) (random : Z) (now : str)
  : M st value :=
  let submission_id := new_submission_id random in
  (feedback <- with_orch (Orchestrator.check_paper run_stream
                            (req_title request) (req_content request)) ;;
   let submission :=
     {| submission_id := submission_id;
        title := req_title request;
        authors := join (lit ", ") (req_authors request);
        content := req_content request;
        professor_email := req_professor_email request;
        status := lit "submitted";
        feedback := str_of_feedback feedback |} in
   _ <- with_db (db_add submission) ;;
   _ <- with_db db_commit ;;
   ret (VDict [ (lit "submission_id", VStr submission_id);
                (lit "status", VStr (lit "submitted"));
                (lit "message", VStr (lit "Paper submitted to " ++ req_professor_email request));
                (lit "submitted_at", VStr now) ]))%py.

(** [submit_paper]: whatever the body raises is raised again as an
    [HTTPException] with status 500. *)
Definition submit_paper (request : PaperSubmitRequest) (random : Z) (now : str)
  : M st value :=
  fun s =>
    match submit_paper_try request random now s with
    | (s', inr response) => (s', inr response)
    | (s', inl e) => (s', inl (HTTPException 500 e))
    end.

End Endpoint.

(** Modelled from the spec: the submission store of [database.py], which is
    not among the sources.  A flat table, one row per submission; a
    submission is written by a transactional create and commit, so a row
    added to the session reaches the table at the commit. *)
Record table := { rows : list PaperSubmission; pending : list PaperSubmission }.

Definition table_add (row : PaperSubmission) : M table unit :=
  fun t => ({| rows := rows t; pending := pending t ++ [row] |}, inr tt).

Definition table_commit : M table unit :=
  fun t => ({| rows := rows t ++ pending t; pending := [] |}, inr tt).

Definition plain_repr (s : str) : str := lit "'" ++ s ++ lit "'".

Definition test_request : PaperSubmitRequest :=
  {| req_title := lit "On graphs";
     req_authors := [lit "A. One"; lit "B. Two"];
     req_content := lit "Abstract. Body.";
     req_professor_email := lit "prof@example.org" |}.

End Backend.

(* ================================================================== *)
(** ** backend.py: the other endpoints *)

Module Endpoints.

Record ResearchRequest := { topic : str; max_papers : Z }.
Record ConceptRequest := { concept : str; context : option str }.
Record PaperCheckRequest := { title : str; content : str }.

(** A row as a query returns it: what it was built with, and the column
    [submitted_at], a [datetime] given by the text of its [isoformat()],
    or NULL. *)
Record StoredSubmission := {
  stored : Backend.PaperSubmission;
  submitted_at : option str
}.

(** [HTTPException(status_code=404, detail="Submission not found")]; the
    text of the detail is carried as the message of the cause. *)
Definition not_found : exn :=
  HTTPException 404 (Raised (lit "detail") (lit "Submission not found")).

Section Api.

Variable Team : Type.
Variable run_stream : Orchestrator.TextMessage -> M Team Orchestrator.stream.
Variable Session : Type.

(** [db.query(PaperSubmission).filter(PaperSubmission.submission_id ==
    submission_id).first()] *)
Variable query_first : str -> M Session (option StoredSubmission).

Definition run_research (request : ResearchRequest) : M (Backend.st Team Session) value :=
  fun s =>
    match Backend.with_orch
            (Orchestrator.run_research_workflow run_stream (topic request) (max_papers request)) s
    with
    | (s', inr results) => (s', inr results)
    | (s', inl e) => (s', inl (HTTPException 500 e))
    end.

Definition explain_concept (request : ConceptRequest) : M (Backend.st Team Session) value :=
  fun s =>
    match Backend.with_orch
            (Orchestrator.explain_concept run_stream (concept request) (context request)) s
    with
    | (s', inr explanation) =>
        (s', inr (VDict [ (lit "concept", VStr (concept request));
                          (lit "explanation", VStr explanation) ]))
    | (s', inl e) => (s', inl (HTTPException 500 e))
    end.

Definition check_paper (request : PaperCheckRequest) : M (Backend.st Team Session) value :=
  fun s =>
    match Backend.with_orch
            (Orchestrator.check_paper run_stream (title request) (content request)) s
    with
    | (s', inr feedback) => (s', inr feedback)
    | (s', inl e) => (s', inl (HTTPException 500 e))
    end.

(** [submission.submitted_at.isoformat()]: [None] has no such method. *)
Definition isoformat (submitted_at : option str) : exn + str :=
  match submitted_at with
  | Some text => inr text
  | None => inl AttributeError
  end.

(** The body of the [try] of [get_submission_status]. *)
Definition get_submission_status_try (submission_id : str)
  : M (Backend.st Team Session) value :=
  (submission <- Backend.with_db (Team := Team) (query_first submission_id) ;;
   match submission with
   | None => raise not_found
   | Some row =>
       submitted <- pure_of (isoformat (submitted_at row)) ;;
       ret (VDict [ (lit "submission_id", VStr (Backend.submission_id (stored row)));
                    (lit "title", VStr (Backend.title (stored row)));
                    (lit "status", VStr (Backend.status (stored row)));
                    (lit "submitted_at", VStr submitted);
                    (lit "feedback", VStr (Backend.feedback (stored row))) ])
   end)%py.

(** [get_submission_status]: an [HTTPException] is raised again as it is
    ([except HTTPException: raise]), anything else as an [HTTPException]
    with status 500. *)
Definition get_submission_status (submission_id : str)
  : M (Backend.st Team Session) value :=
  fun s =>
    match get_submission_status_try submission_id s with
    | (s', inr response) => (s', inr response)
    | (s', inl (HTTPException status_code cause)) =>
        (s', inl (HTTPException status_code cause))
    | (s', inl e) => (s', inl (HTTPException 500 e))
    end.

End Api.

(** A query for the examples: it answers every identifier alike. *)
Definition answers (r : exn + option StoredSubmission)
  : str -> M Backend.table (option StoredSubmission) :=
  fun _ t => (t, r).

End Endpoints.

(* ================================================================== *)
(** ** frontend.py: what the pages send *)

Module Frontend.

(** [str.isspace] for one character: the white space of Unicode. *)
Definition is_space (c : char) : bool :=
  ((9 <=? c) && (c <=? 13) || (28 <=? c) && (c <=? 32) || (c =? 133) || (c =? 160)
   || (c =? 5760) || (8192 <=? c) && (c <=? 8202) || (c =? 8232) || (c =? 8233)
   || (c =? 8239) || (c =? 8287) || (c =? 12288))%N.

Fixpoint lstrip (s : str) : str :=
  match s with
  | [] => []
  | c :: s' => if is_space c then lstrip s' else s
  end.

Definition rstrip (s : str) : str := rev (lstrip (rev s)).

(** [s.strip()] *)
Definition strip (s : str) : str := rstrip (lstrip s).

(** [s.split(sep)] for a separator of one character. *)
Fixpoint split (sep : char) (s : str) : list str :=
  match s with
  | [] => [[]]
  | c :: s' =>
      if N.eqb c sep then [] :: split sep s'
      else match split sep s' with
           | piece :: pieces => (c :: piece) :: pieces
           | [] => [[c]]
           end
  end.

Definition comma : char := 44%N.

(** Line 183: [[a.strip() for a in authors.split(",")]] *)
Definition authors_list (authors : str) : list str := map strip (split comma authors).

Definition filled (s : str) : bool := match s with [] => false | _ => true end.

(** Lines 178-186: the request of the Submit Paper tab, sent only when
    the four fields are filled. *)
Definition submit_form (title authors content professor_email : str)
  : option Backend.PaperSubmitRequest :=
  if filled title && filled authors && filled content && filled professor_email
  then Some {| Backend.req_title := title;
               Backend.req_authors := authors_list authors;
               Backend.req_content := content;
               Backend.req_professor_email := professor_email |}
  else None.

End Frontend.

(* ================================================================== *)
(** ** What the statements below speak of *)

Import PubmedUtils Orchestrator Backend.

(** The strings [_collect_messages] is to put together: the text of every
    message that has content, in the order of arrival. *)
Fixpoint texts (l : list item) : list str :=
  match l with
  | [] => []
  | WithContent _ c :: rest => py_str c :: texts rest
  | WithoutContent :: rest => texts rest
  end.

(** The claim's reading of the same: only the turns whose content is a
    text count, and every other turn is passed over. *)
Fixpoint textual_texts (l : list item) : list str :=
  match l with
  | [] => []
  | WithContent _ (Text s) :: rest => s :: textual_texts rest
  | _ :: rest => textual_texts rest
  end.

(** Two turns, the second with the content [None], which [str()] shows as
    the text None. *)
Definition mixed_turns : list item :=
  [ says (lit "synthesis_agent") (lit "hello");
    WithContent (lit "synthesis_agent") (Object (lit "None")) ].

(** The first coordinator run of the research workflow that raises, with
    the state it leaves and the exception. *)
Inductive stage_raises {Team} (run_stream : TextMessage -> M Team stream)
  (topic : str) (max_papers : Z) (s : Orchestrator.st Team)
  : Orchestrator.st Team -> exn -> Prop :=
| literature_raises s1 e :
    run_and_collect run_stream (lit_prompt topic max_papers) s = (s1, inl e) ->
    stage_raises run_stream topic max_papers s s1 e
| synthesis_raises s1 literature_data s2 e :
    run_and_collect run_stream (lit_prompt topic max_papers) s = (s1, inr literature_data) ->
    run_and_collect run_stream (syn_prompt literature_data) s1 = (s2, inl e) ->
    stage_raises run_stream topic max_papers s s2 e
| extensions_raises s1 literature_data s2 synthesis_data s3 e :
    run_and_collect run_stream (lit_prompt topic max_papers) s = (s1, inr literature_data) ->
    run_and_collect run_stream (syn_prompt literature_data) s1 = (s2, inr synthesis_data) ->
    run_and_collect run_stream (ext_prompt synthesis_data) s2 = (s3, inl e) ->
    stage_raises run_stream topic max_papers s s3 e.



(** The records of the ids whose extraction returns, in the order of the
    ids, and the number of ids whose extraction raises. *)
Definition extracted (fetch_data : value) (ids : list str) : list paper :=
  flat_map (fun paper_id => match extract_paper fetch_data paper_id with
                            | inr paper => [paper]
                            | inl _ => []
                            end) ids.


(** The name an upstream author entry carries, if it is a dictionary with
    the key [name], and the names a list of entries carries. *)
Definition name_of (author : value) : option value :=
  match author with
  | VDict kv => lookup (lit "name") kv
  | _ => None
  end.

Definition names (entries : list value) : list value :=
  flat_map (fun author => match name_of author with
                          | Some name => [name]
                          | None => []
                          end) entries.








(** One id; its summary lists four authors, the second without a name. *)
Definition four_authors : list value :=
  [ author (lit "Doudna J"); VDict [(lit "authtype", VStr (lit "Author"))];
    author (lit "Charpentier E"); author (lit "Zhang F") ].

Definition nameless_author : canned :=
  [ ok_json (idlist_doc [lit "101"]);
    ok_json (VDict [ (lit "result",
                      VDict [ (lit "101", summary (lit "Editing") four_authors) ]) ]) ].

Definition five_named : canned :=
  [ ok_json (idlist_doc [lit "101"]);
    ok_json (VDict [ (lit "result",
                      VDict [ (lit "101",
                               summary (lit "Editing")
                                 [ author (lit "A"); author (lit "B"); author (lit "C");
                                   author (lit "D"); author (lit "E") ]) ]) ]) ].

(** Teams for the examples. *)
Definition three_runs : script :=
  [ inr (stream_of [says (lit "user") (lit "task"); says (lit "literature_agent") (lit "P1, P2");
                    WithoutContent]);
    inr (stream_of [says (lit "synthesis_agent") (lit "S1")]);
    inr (stream_of [says (lit "extensions_agent") (lit "E1"); says (lit "extensions_agent") (lit "E2")]) ].

Definition boom : exn := Raised (lit "APIConnectionError") (lit "Connection error.").

Definition fresh (t : script) : Orchestrator.st script := {| team := t; tasks := [] |}.

(** An orchestrator and a store for the examples of the endpoint. *)
Definition empty_table : table := {| rows := []; pending := [] |}.

Definition backend_state (t : script) : Backend.st script table :=
  {| orch := fresh t; db := empty_table |}.

Definition advisor_answers : script :=
  [ inr (stream_of [says (lit "advisor_agent") (lit "Score: 80")]) ].

Definition raises_in_literature : script := [ inl boom ].

Definition raises_in_synthesis : script :=
  [ inr (stream_of [says (lit "literature_agent") (lit "P1")]); inl boom ].

(** The third run breaks while its stream is being read. *)
Definition raises_in_extensions : script :=
  [ inr (stream_of [says (lit "literature_agent") (lit "P1")]);
    inr (stream_of [says (lit "synthesis_agent") (lit "S1")]);
    inr (Yield (says (lit "extensions_agent") (lit "E1")) (Broken boom)) ].


(** The keys of a summary that [extract_paper] reads. *)
Definition summary_keys : list str :=
  [ lit "authors"; lit "title"; lit "fulljournalname"; lit "pubdate"; lit "elocationid" ].

(** More networks for the examples: ids given as numbers; summaries
    without the key [result]; a summary that is an empty object. *)
Definition numeric_ids : canned :=
  [ ok_json (VDict [(lit "esearchresult",
                     VDict [(lit "idlist", VList [VStr (lit "101"); VInt 102])])]) ].

Definition no_result_key : canned :=
  [ ok_json (idlist_doc [lit "101"; lit "102"]);
    ok_json (VDict [ (lit "error", VStr (lit "summaries unavailable")) ]) ].

Definition bare_summary : value :=
  VDict [ (lit "result", VDict [ (lit "101", VDict []) ]) ].

Definition one_summary : value :=
  VDict [ (lit "result", VDict [ (lit "101", summary (lit "First") [author (lit "A")]) ]) ].

Definition all_well : canned :=
  [ ok_json (idlist_doc [lit "101"; lit "102"]);
    ok_json (VDict [ (lit "result",
                      VDict [ (lit "101", summary (lit "First") [author (lit "A")]);
                              (lit "102", summary (lit "Second") []) ]) ]) ].

(** A row in the store, for the examples of the status endpoint. *)
Definition sample_row : PaperSubmission :=
  {| submission_id := lit "SUB-1A2B3C4D";
     Backend.title := lit "On graphs";
     Backend.authors := lit "A. One, B. Two";
     Backend.content := lit "Abstract. Body.";
     professor_email := lit "prof@example.org";
     status := lit "submitted";
     feedback := lit "{'feedback': 'Score: 80'}" |}.

Definition sample_stored : Endpoints.StoredSubmission :=
  {| Endpoints.stored := sample_row;
     Endpoints.submitted_at := Some (lit "2025-01-01T00:00:00") |}.

(** A commit that fails, for the examples. *)
Definition failing_commit : M table unit := fun t => (t, inl boom).

(** A constructor for the examples: each construction takes the next
    number. *)
Definition counting : M nat nat := fun n => (S n, inr n).

Unset Implicit Arguments.

(* ================================================================== *)
(** ** Text *)

Lemma str_eqb_eq (a b : str) : str_eqb a b = true <-> a = b.
Proof.
  revert b; induction a as [|x a IH]; intros [|y b]; simpl; split; intro H;
    try reflexivity; try discriminate.
  - apply andb_true_iff in H as [Hx Hr]. apply N.eqb_eq in Hx. apply IH in Hr.
    now subst.
  - injection H as -> ->. rewrite N.eqb_refl. simpl. now apply IH.
Qed.

Lemma startswith_app (p rest : str) : startswith p (p ++ rest) = true.
Proof.
  induction p as [|x p IH]; simpl; [reflexivity|].
  now rewrite N.eqb_refl.
Qed.

Lemma startswith_inv (p s : str) :
  startswith p s = true -> exists rest, s = p ++ rest.
Proof.
  revert s; induction p as [|x p IH]; intros s H.
  - now exists s.
  - destruct s as [|y s]; simpl in H; [discriminate|].
    apply andb_true_iff in H as [Hx Hr]. apply N.eqb_eq in Hx. subst y.
    destruct (IH _ Hr) as [rest ->]. now exists rest.
Qed.

(** [p in s] holds exactly when [s] has [p] inside it, whole and unbroken. *)
Lemma str_in_here (p s : str) : startswith p s = true -> str_in p s = true.
Proof.
  intro H. destruct s; simpl; now rewrite H.
Qed.

Lemma str_in_intro (p pre post : str) : str_in p (pre ++ p ++ post) = true.
Proof.
  induction pre as [|c pre IH].
  - apply str_in_here. simpl app. apply startswith_app.
  - simpl. rewrite IH. apply orb_true_r.
Qed.

Lemma str_in_inv (p s : str) :
  str_in p s = true -> exists pre post, s = pre ++ p ++ post.
Proof.
  induction s as [|c s IH]; simpl; intro H.
  - rewrite orb_false_r in H. destruct (startswith_inv _ _ H) as [rest ->].
    now exists [], rest.
  - apply orb_true_iff in H as [H|H].
    + destruct (startswith_inv _ _ H) as [rest ->]. now exists [], rest.
    + destruct (IH H) as (pre & post & ->). now exists (c :: pre), post.
Qed.

(** A pattern whose first character is not in [a] does not start in [a]. *)
Lemma str_in_skip (c0 : char) (p a rest : str) :
  forallb (fun x => negb (N.eqb c0 x)) a = true ->
  str_in (c0 :: p) (a ++ rest) = str_in (c0 :: p) rest.
Proof.
  induction a as [|x a IH]; intro H; [reflexivity|].
  simpl in H. apply andb_true_iff in H as [Hx Ha].
  change (str_in (c0 :: p) ((x :: a) ++ rest))
    with (startswith (c0 :: p) (x :: a ++ rest) || str_in (c0 :: p) (a ++ rest)).
  rewrite (IH Ha). simpl startswith.
  apply negb_true_iff in Hx. now rewrite Hx.
Qed.

(** A pattern that lacks the character [b0] does not run into a text that
    begins with it. *)
Lemma startswith_stop (b0 : char) (p s b : str) :
  forallb (fun x => negb (N.eqb x b0)) p = true ->
  startswith p (s ++ b0 :: b) = startswith p s.
Proof.
  revert s; induction p as [|x p IH]; intros s H; [reflexivity|].
  simpl in H. apply andb_true_iff in H as [Hx Hp].
  destruct s as [|y s]; simpl.
  - apply negb_true_iff in Hx. now rewrite Hx.
  - now rewrite (IH s Hp).
Qed.

Lemma str_in_stop (c0 b0 : char) (p s b : str) :
  forallb (fun x => negb (N.eqb x b0)) (c0 :: p) = true ->
  forallb (fun x => negb (N.eqb c0 x)) (b0 :: b) = true ->
  str_in (c0 :: p) (s ++ b0 :: b) = str_in (c0 :: p) s.
Proof.
  intros Hp Hb. induction s as [|y s IH].
  - change ([] ++ b0 :: b) with (b0 :: b).
    rewrite <- (app_nil_r (b0 :: b)), (str_in_skip c0 p (b0 :: b) [] Hb). reflexivity.
  - change (str_in (c0 :: p) ((y :: s) ++ b0 :: b))
      with (startswith (c0 :: p) ((y :: s) ++ b0 :: b) || str_in (c0 :: p) (s ++ b0 :: b)).
    rewrite IH, (startswith_stop b0 (c0 :: p) (y :: s) b Hp). reflexivity.
Qed.

(* ================================================================== *)
(** ** The coordinator and the workflow sequencer *)

Lemma collect_loop_stream_of (l : list item) (messages : list str) :
  collect_loop messages (stream_of l) = inr (messages ++ texts l).
Proof.
  revert messages; induction l as [|m l IH]; intro messages; simpl.
  - now rewrite app_nil_r.
  - destruct m as [source c|]; rewrite IH; [|reflexivity].
    now rewrite <- app_assoc.
Qed.

(** C8, as amended. For every finite stream of conversation turns,
    [_collect_messages] returns one string: what [str()] gives for the
    content of every message that has a content attribute (the text
    itself when the content is a string), in the order of arrival, joined
    by newlines; a message without a content attribute adds nothing. *)
Theorem collect_messages_joins_texts (l : list item) :
  _collect_messages (stream_of l) = inr (join nl (texts l)).
Proof.
  unfold _collect_messages. rewrite collect_loop_stream_of. reflexivity.
Qed.

(** C8, as it is stated, fails: a turn whose content is not a text is not
    skipped; its content [None] comes into the result as the text None. *)
Lemma collect_messages_counterexample :
  _collect_messages (stream_of mixed_turns) = inr (lit "hello" ++ nl ++ lit "None")
  /\ join nl (textual_texts mixed_turns) = lit "hello".
Proof.
  split; reflexivity.
Qed.

(** When the content of every turn is a text, the two readings agree. *)
Lemma texts_of_text_turns (l : list item) :
  Forall (fun m => match m with
                   | WithContent _ (Object _) => False
                   | _ => True
                   end) l ->
  texts l = textual_texts l.
Proof.
  induction 1 as [|m l Hm _ IH]; [reflexivity|].
  destruct m as [source [s|shown]|]; simpl; [now rewrite IH | contradiction | exact IH].
Qed.

Section Sequencer.

Variable Team : Type.
Variable run_stream : TextMessage -> M Team stream.


(** Every coordinator run hands exactly its prompt to the team, as the
    task of the user, whether the run raises or not. *)
Lemma run_and_collect_tasks (prompt : str) (s s' : Orchestrator.st Team) (r : exn + str) :
  run_and_collect run_stream prompt s = (s', r) ->
  tasks s' = tasks s ++ [user_task prompt].
Proof.
  unfold run_and_collect, bind, team_run_stream, pure_of.
  destruct (run_stream (user_task prompt) (team s)) as [team' [e|result]];
    intro H; injection H as <- _; reflexivity.
Qed.




(** C2. When the coordinator run of a stage raises, the stages before it
    having returned, the workflow raises the same exception and returns no
    result. *)
Theorem research_workflow_propagates (topic : str) (max_papers : Z)
    (s s' : Orchestrator.st Team) (e : exn) :
  stage_raises run_stream topic max_papers s s' e ->
  run_research_workflow run_stream topic max_papers s = (s', inl e).
Proof.
  intros [s1 e1 HA | s1 lit1 s2 e2 HA HB | s1 lit1 s2 syn2 s3 e3 HA HB HC];
    unfold run_research_workflow.
  - unfold bind at 1. now rewrite HA.
  - unfold bind at 1. rewrite HA. unfold bind at 1. now rewrite HB.
  - unfold bind at 1. rewrite HA. unfold bind at 1. rewrite HB.
    unfold bind at 1. now rewrite HC.
Qed.


(** C9, as amended. [explain_concept] makes one run, on one prompt.  With
    a context that is a non-empty string the prompt is the base
    instruction, the context block and the fixed request, and so has
    [Context:] in it.  With no context, or an empty one, it is the base
    instruction and the fixed request, and has [Context:] in it exactly
    when the concept has. *)
Theorem explain_prompt_context (concept : str) (context : option str) :
  explain_concept run_stream concept context =
    run_and_collect run_stream (explain_prompt concept context)
  /\ match context with
     | Some (c :: cs) =>
         explain_prompt concept context =
           explain_base concept ++ context_block (c :: cs) ++ explain_request
         /\ str_in (lit "Context:") (explain_prompt concept context) = true
     | Some [] | None =>
         explain_prompt concept context = explain_base concept ++ explain_request
         /\ str_in (lit "Context:") (explain_prompt concept context) =
              str_in (lit "Context:") concept
     end.
Proof.
  split; [reflexivity|].
  assert (Hplain : str_in (lit "Context:") (explain_base concept ++ explain_request) =
                   str_in (lit "Context:") concept).
  { unfold explain_base. rewrite <- app_assoc.
    change (lit "Context:") with (67%N :: lit "ontext:").
    rewrite str_in_skip by reflexivity.
    change explain_request
      with (10%N :: nl ++ lit "Provide: simple explanation, examples, analogies").
    apply str_in_stop; reflexivity. }
  destruct context as [[|c cs]|]; unfold explain_prompt.
  - split; [reflexivity | exact Hplain].
  - split; [now rewrite <- app_assoc|].
    unfold context_block.
    change (lit "Context: ") with (lit "Context:" ++ lit " ").
    replace ((explain_base concept ++ nl ++ nl ++ (lit "Context:" ++ lit " ") ++ c :: cs)
               ++ explain_request)
      with ((explain_base concept ++ nl ++ nl) ++ lit "Context:"
              ++ (lit " " ++ (c :: cs) ++ explain_request)).
    + apply str_in_intro.
    + now rewrite <- !app_assoc.
  - split; [reflexivity | exact Hplain].
Qed.

End Sequencer.


Lemma research_workflow_propagates_witness :
  (exists s', run_research_workflow scripted_run (lit "t") 5 (fresh raises_in_literature)
                = (s', inl boom))
  /\ (exists s', run_research_workflow scripted_run (lit "t") 5 (fresh raises_in_synthesis)
                   = (s', inl boom))
  /\ (exists s', run_research_workflow scripted_run (lit "t") 5 (fresh raises_in_extensions)
                   = (s', inl boom)).
Proof.
  split; [|split]; eexists; apply research_workflow_propagates.
  - eapply literature_raises; vm_compute; reflexivity.
  - eapply synthesis_raises; [vm_compute; reflexivity | vm_compute; reflexivity].
  - eapply extensions_raises;
      [vm_compute; reflexivity | vm_compute; reflexivity | vm_compute; reflexivity].
Defined.

(** C9, as it is stated, fails: a concept that has [Context:] in it brings
    it into the prompt although no context is given, and a context that is
    supplied but empty gets no context block. *)
Lemma explain_prompt_counterexample :
  str_in (lit "Context:") (explain_prompt (lit "Context: what it means") None) = true
  /\ explain_prompt (lit "overfitting") (Some []) = explain_prompt (lit "overfitting") None.
Proof.
  split; reflexivity.
Qed.

(* ================================================================== *)
(** ** The literature client *)


Lemma extracted_in (fetch_data : value) (ids : list str) (p : paper) :
  In p (extracted fetch_data ids) ->
  exists paper_id, In paper_id ids /\ extract_paper fetch_data paper_id = inr p.
Proof.
  unfold extracted. intro H. apply in_flat_map in H as (paper_id & Hid & Hp).
  exists paper_id. split; [exact Hid|].
  destruct (extract_paper fetch_data paper_id) as [e|paper]; simpl in Hp.
  - contradiction.
  - destruct Hp as [->|[]]. reflexivity.
Qed.

(** The loop over the first three entries returns only when every entry is
    a dictionary with a name, whose name it appends, or an entry in which
    the test for a name is false, which it passes over. *)
Lemma authors_loop_names (first3 authors result : list value) :
  authors_loop authors first3 = inr result ->
  result = authors ++ names first3.
Proof.
  revert authors; induction first3 as [|entry rest IH]; intros authors H; simpl in H.
  - injection H as <-. unfold names. simpl. now rewrite app_nil_r.
  - change (names (entry :: rest))
      with ((match name_of entry with Some name => [name] | None => [] end) ++ names rest).
    destruct entry as [ | b | z | bits | s | l | kv ]; simpl in H; try discriminate.
    + destruct (str_in (lit "name") s); [discriminate|]. now apply IH.
    + destruct (existsb _ l); [discriminate|]. now apply IH.
    + simpl name_of. destruct (lookup (lit "name") kv) as [name|].
      * simpl in H. apply IH in H. subst result. now rewrite <- app_assoc.
      * now apply IH.
Qed.

Lemma names_length_le (entries : list value) :
  List.length (names entries) <= List.length entries.
Proof.
  unfold names. induction entries as [|entry rest IH]; simpl; [lia|].
  rewrite length_app. destruct (name_of entry); simpl; lia.
Qed.

Lemma names_all (entries : list value) :
  Forall (fun entry => name_of entry <> None) entries ->
  List.length (names entries) = List.length entries.
Proof.
  unfold names. induction 1 as [|entry rest Hentry _ IH]; simpl; [reflexivity|].
  rewrite length_app, IH. destruct (name_of entry); [reflexivity | contradiction].
Qed.

(** What a returned record says of the summary it was taken from. *)
Lemma extract_paper_inv (fetch_data : value) (paper_id : str) (p : paper) :
  extract_paper fetch_data paper_id = inr p ->
  pmid p = paper_id
  /\ link p = lit "https://pubmed.ncbi.nlm.nih.gov/" ++ paper_id ++ lit "/"
  /\ exists result paper_data upstream first3,
       getitem fetch_data (lit "result") = inr result
       /\ getitem result paper_id = inr paper_data
       /\ py_get paper_data (lit "authors") (VList []) = inr upstream
       /\ slice_to 3 upstream = inr first3
       /\ PubmedUtils.authors p = names first3.
Proof.
  unfold extract_paper, ebind. intro H.
  destruct (getitem fetch_data (lit "result")) as [e|result] eqn:Hresult; [discriminate|].
  destruct (getitem result paper_id) as [e|paper_data] eqn:Hdata; [discriminate|].
  destruct (py_get paper_data (lit "authors") (VList [])) as [e|upstream] eqn:Hup;
    [discriminate|].
  destruct (slice_to 3 upstream) as [e|first3] eqn:Hslice; [discriminate|].
  destruct (authors_loop [] first3) as [e|found] eqn:Hloop; [discriminate|].
  destruct (py_get paper_data (lit "title") (VStr [])); [discriminate|].
  destruct (py_get paper_data (lit "fulljournalname") (VStr [])); [discriminate|].
  destruct (py_get paper_data (lit "pubdate") (VStr [])); [discriminate|].
  destruct (py_get paper_data (lit "elocationid") (VStr [])) as [e|elocationid]; [discriminate|].
  destruct (strip_doi elocationid); [discriminate|].
  injection H as <-. simpl. split; [reflexivity|]. split; [reflexivity|].
  exists result, paper_data, upstream, first3.
  apply authors_loop_names in Hloop. simpl in Hloop. now repeat split.
Qed.

Section Client.

Variable Net : Type.
Variable requests_get : str -> list (str * value) -> M Net response.
Variable cfg : config.
Variable print : str -> M Net unit.
Variable str_of_exn : exn -> str.

(** When the loop returns, it returns the records that could be
    extracted, in the order of the ids. *)
Lemma papers_loop_returns (fetch_data : value) (ids : list str) (papers result : list paper)
    (net net' : Net) :
  papers_loop print str_of_exn fetch_data papers ids net = (net', inr result) ->
  result = papers ++ extracted fetch_data ids.
Proof.
  revert papers net; induction ids as [|paper_id ids IH]; intros papers net H; simpl in H.
  - injection H as _ <-. unfold extracted. simpl. now rewrite app_nil_r.
  - unfold extracted. simpl. fold (extracted fetch_data ids).
    destruct (extract_paper fetch_data paper_id) as [e|paper].
    + unfold bind in H.
      destruct (paper_error_handler print str_of_exn paper_id e net) as [net1 [e'|[]]];
        [discriminate|]. exact (IH _ _ H).
    + apply IH in H. rewrite H. now rewrite <- app_assoc.
Qed.



(** The body of the [try], step by step. *)
Lemma search_pubmed_try_steps (query : str) (max_results : Z) (net : Net) :
  search_pubmed_try requests_get cfg print str_of_exn query max_results net =
    match id_search requests_get cfg query max_results net with
    | (net1, inl e) => (net1, inl e)
    | (net1, inr ids) =>
        if truthy ids then
          match str_items ids with
          | inl e => (net1, inl e)
          | inr id_strs =>
              match get_json requests_get (fetch_url cfg) (fetch_params cfg id_strs) net1 with
              | (net2, inl e) => (net2, inl e)
              | (net2, inr fetch_data) =>
                  papers_loop print str_of_exn fetch_data [] id_strs net2
              end
          end
        else (net1, inr [])
    end.
Proof.
  unfold search_pubmed_try. unfold bind at 1.
  destruct (id_search requests_get cfg query max_results net) as [net1 [e|ids]];
    [reflexivity|].
  destruct (truthy ids); [|reflexivity].
  cbn [negb]. unfold bind at 1, pure_of.
  destruct (str_items ids) as [e|id_strs]; [reflexivity|].
  unfold bind.
  destruct (get_json requests_get (fetch_url cfg) (fetch_params cfg id_strs) net1)
    as [net2 [e|fetch_data]]; reflexivity.
Qed.

(** What the outer handler gives is the empty list or an exception. *)
Lemma search_error_handler_gives (e : exn) (net net' : Net) (r : exn + list paper) :
  search_error_handler print str_of_exn e net = (net', r) ->
  r = inr [] \/ exists e', r = inl e'.
Proof.
  unfold search_error_handler, bind, ret.
  destruct (print _ net) as [net1 [e'|[]]]; intro H; injection H as _ <-.
  - right. now exists e'.
  - now left.
Qed.


(** A record in the result comes from a run in which both phases and the
    loop returned. *)
Lemma search_pubmed_inv (query : str) (max_results : Z) (net net' : Net)
    (papers : list paper) (p : paper) :
  search_pubmed requests_get cfg print str_of_exn query max_results net = (net', inr papers) ->
  In p papers ->
  exists net1 ids id_strs net2 fetch_data,
    id_search requests_get cfg query max_results net = (net1, inr ids)
    /\ truthy ids = true
    /\ str_items ids = inr id_strs
    /\ get_json requests_get (fetch_url cfg) (fetch_params cfg id_strs) net1
         = (net2, inr fetch_data)
    /\ papers_loop print str_of_exn fetch_data [] id_strs net2 = (net', inr papers)
    /\ papers = extracted fetch_data id_strs.
Proof.
  unfold search_pubmed. rewrite search_pubmed_try_steps. intros H Hin.
  assert (Hhandler : forall e n, search_error_handler print str_of_exn e n = (net', inr papers)
                                 -> False).
  { intros e n He. destruct (search_error_handler_gives _ _ _ _ He) as [Hr|[e' Hr]];
      [injection Hr as ->; contradiction | discriminate]. }
  destruct (id_search requests_get cfg query max_results net) as [net1 [e|ids]] eqn:Hids;
    [now apply Hhandler in H|].
  destruct (truthy ids) eqn:Htrue; [|injection H as _ <-; contradiction].
  destruct (str_items ids) as [e|id_strs] eqn:Hstrs; [now apply Hhandler in H|].
  destruct (get_json requests_get (fetch_url cfg) (fetch_params cfg id_strs) net1)
    as [net2 [e|fetch_data]] eqn:Hfetch; [now apply Hhandler in H|].
  destruct (papers_loop print str_of_exn fetch_data [] id_strs net2)
    as [net3 [e|result]] eqn:Hloop; [now apply Hhandler in H|].
  injection H as <- <-.
  exists net1, ids, id_strs, net2, fetch_data.
  pose proof (papers_loop_returns _ _ _ _ _ _ Hloop) as Hresult. now repeat split.
Qed.



(** C5, as amended. A returned record whose summary has the author list
    [upstream] lists the names that the first three entries of [upstream]
    carry, in order: three names at most, and exactly three when the list
    has more than three entries and each of the first three carries a
    name. *)
Theorem authors_of_first_three (query : str) (max_results : Z) (net net1 net2 net' : Net)
    (papers : list paper) (p : paper) (ids : value) (id_strs : list str)
    (fetch_data result paper_data : value) (upstream : list value) :
  search_pubmed requests_get cfg print str_of_exn query max_results net = (net', inr papers) ->
  In p papers ->
  id_search requests_get cfg query max_results net = (net1, inr ids) ->
  str_items ids = inr id_strs ->
  get_json requests_get (fetch_url cfg) (fetch_params cfg id_strs) net1
    = (net2, inr fetch_data) ->
  getitem fetch_data (lit "result") = inr result ->
  getitem result (pmid p) = inr paper_data ->
  py_get paper_data (lit "authors") (VList []) = inr (VList upstream) ->
  PubmedUtils.authors p = names (firstn 3 upstream)
  /\ List.length (PubmedUtils.authors p) <= 3
  /\ (3 < List.length upstream ->
      Forall (fun entry => name_of entry <> None) (firstn 3 upstream) ->
      List.length (PubmedUtils.authors p) = 3).
Proof.
  intros Hrun Hin Hids Hstrs Hfetch Hresult Hdata Hup.
  destruct (search_pubmed_inv _ _ _ _ _ _ Hrun Hin)
    as (net1' & ids' & id_strs' & net2' & fetch_data' & Hids' & _ & Hstrs' & Hfetch' & _ & ->).
  rewrite Hids in Hids'. injection Hids' as <- <-.
  rewrite Hstrs in Hstrs'. injection Hstrs' as <-.
  rewrite Hfetch in Hfetch'. injection Hfetch' as <- <-.
  destruct (extracted_in _ _ _ Hin) as (paper_id & _ & Hextract).
  destruct (extract_paper_inv _ _ _ Hextract)
    as (Hpmid & _ & result' & paper_data' & upstream' & first3 & Hresult' & Hdata' & Hup'
        & Hslice & Hauthors).
  subst paper_id.
  rewrite Hresult in Hresult'. injection Hresult' as <-.
  rewrite Hdata in Hdata'. injection Hdata' as <-.
  rewrite Hup in Hup'. injection Hup' as <-.
  assert (Hfirst3 : first3 = firstn 3 upstream)
    by (change (inr (firstn 3 upstream) = inr first3 :> exn + list value) in Hslice;
        congruence).
  subst first3. rewrite Hauthors. split; [reflexivity|]. split.
  - pose proof (names_length_le (firstn 3 upstream)) as Hle.
    rewrite length_firstn in Hle. lia.
  - intros Hlong Hnamed. rewrite (names_all _ Hnamed), length_firstn. lia.
Qed.

End Client.





Lemma authors_of_first_three_witness :
  exists p,
    In p (returned (snd (search_pubmed canned_get test_cfg ascii_print show_exn
                           (lit "CRISPR") 5 five_named)))
    /\ PubmedUtils.authors p = [VStr (lit "A"); VStr (lit "B"); VStr (lit "C")]
    /\ List.length (PubmedUtils.authors p) = 3.
Proof.
  eexists. split; [left; reflexivity|].
  edestruct (authors_of_first_three canned canned_get test_cfg ascii_print show_exn
               (lit "CRISPR") 5 five_named)
    as (Hnames & _ & Hthree);
    [ vm_compute; reflexivity | left; reflexivity | vm_compute; reflexivity
    | vm_compute; reflexivity | vm_compute; reflexivity | vm_compute; reflexivity
    | vm_compute; reflexivity | vm_compute; reflexivity | ].
  split.
  - refine (eq_trans Hnames _). vm_compute. reflexivity.
  - apply Hthree.
    + vm_compute. lia.
    + vm_compute. repeat constructor; discriminate.
Defined.

(** C5, as it is stated, fails: the summary of paper 101 lists four
    authors, the second of them without a name, and the record returned
    for it has two author names, not three. *)
Lemma authors_counterexample :
  List.length four_authors = 4
  /\ map PubmedUtils.authors
       (returned (snd (search_pubmed canned_get test_cfg ascii_print show_exn
                         (lit "CRISPR gene editing") 3 nameless_author)))
     = [ [VStr (lit "Doudna J"); VStr (lit "Charpentier E")] ].
Proof.
  split; vm_compute; reflexivity.
Qed.

(* ================================================================== *)
(** ** The submission endpoint *)

Lemma hexdigit_upper (d : Z) :
  is_upper_hex (upper_char (hexdigit (Z.land d 15))) = true.
Proof.
  change 15%Z with (Z.ones 4). rewrite Z.land_ones by lia.
  change (2 ^ 4)%Z with 16%Z.
  pose proof (Z.mod_pos_bound d 16 eq_refl) as Hd.
  assert (Hcases : In (d mod 16)%Z [0; 1; 2; 3; 4; 5; 6; 7; 8; 9; 10; 11; 12; 13; 14; 15]%Z)
    by (simpl; lia).
  simpl in Hcases.
  repeat (destruct Hcases as [<- | Hcases]; [reflexivity|]).
  contradiction.
Qed.

Lemma in_firstn {A} (n : nat) (l : list A) (x : A) : In x (firstn n l) -> In x l.
Proof.
  revert l; induction n as [|n IH]; intros [|y l] H; simpl in H; try contradiction.
  destruct H as [->|H]; [now left | right; now apply IH].
Qed.

Lemma hex_prefix_upper (n : nat) (int : Z) :
  forallb is_upper_hex (upper (firstn n (hex int))) = true.
Proof.
  apply forallb_forall. intros c Hc. unfold upper in Hc.
  apply in_map_iff in Hc as (x & <- & Hx).
  apply in_firstn in Hx. unfold hex in Hx.
  apply in_map_iff in Hx as (k & <- & _).
  apply hexdigit_upper.
Qed.

Lemma new_submission_id_format (random : Z) :
  is_submission_id (new_submission_id random) = true.
Proof.
  unfold is_submission_id, new_submission_id.
  rewrite startswith_app.
  change (skipn 4 (lit "SUB-" ++ upper (firstn 8 (hex (uuid4_int random)))))
    with (upper (firstn 8 (hex (uuid4_int random)))).
  rewrite hex_prefix_upper.
  unfold upper, hex. rewrite length_map, length_firstn, length_map, length_rev, length_seq.
  reflexivity.
Qed.

Section Submit.

Variable Team : Type.
Variable run_stream : TextMessage -> M Team stream.
Variable Session : Type.
Variable db_add : PaperSubmission -> M Session unit.
Variable db_commit : M Session unit.
Variable repr : str -> str.

(** C7. The identifier made for a submission is [SUB-] followed by exactly
    8 characters out of [0-9A-F], whatever the random draw; it is the
    identifier of the response whenever [submit_paper] returns one. *)
Theorem submission_id_format (request : PaperSubmitRequest) (random : Z) (now : str)
    (s s' : Backend.st Team Session) (response : value) :
  submit_paper run_stream db_add db_commit repr request random now s = (s', inr response) ->
  is_submission_id (new_submission_id random) = true
  /\ getitem response (lit "submission_id") = inr (VStr (new_submission_id random)).
Proof.
  intro H. split; [apply new_submission_id_format|].
  unfold submit_paper in H.
  destruct (submit_paper_try run_stream db_add db_commit repr request random now s)
    as [s0 [e|r]] eqn:Htry; [discriminate|].
  injection H as _ <-.
  unfold submit_paper_try in Htry. unfold bind at 1 in Htry.
  destruct (with_orch _ s) as [sa [e|feedback]]; [discriminate|].
  unfold bind at 1 in Htry.
  destruct (with_db (db_add _) sa) as [sb [e|u]]; [discriminate|].
  unfold bind at 1 in Htry.
  destruct (with_db db_commit sb) as [sc [e|u']]; [discriminate|].
  unfold ret in Htry. injection Htry as _ <-. reflexivity.
Qed.

(** C10. When the formatting check raises, [submit_paper] raises (an
    [HTTPException] with status 500 that carries the exception), returns no
    identifier, and leaves the database as it was: neither [db.add] nor
    [db.commit] has run. *)
Theorem failed_check_writes_nothing (request : PaperSubmitRequest) (random : Z) (now : str)
    (s : Backend.st Team Session) (o' : Orchestrator.st Team) (e : exn) :
  check_paper run_stream (req_title request) (req_content request) (orch s) = (o', inl e) ->
  submit_paper run_stream db_add db_commit repr request random now s
    = ({| orch := o'; db := db s |}, inl (HTTPException 500 e)).
Proof.
  intro Hcheck.
  unfold submit_paper, submit_paper_try. unfold bind at 1. unfold with_orch at 1.
  rewrite Hcheck. reflexivity.
Qed.

End Submit.

Lemma submission_id_format_witness :
  exists s' response,
    submit_paper scripted_run table_add table_commit plain_repr test_request
      0x1a2b3c4d5e6f708192a3b4c5d6e7f809 (lit "2025-01-01T00:00:00") (backend_state advisor_answers)
      = (s', inr response)
    /\ getitem response (lit "submission_id") = inr (VStr (lit "SUB-1A2B3C4D"))
    /\ map submission_id (rows (db s')) = [lit "SUB-1A2B3C4D"].
Proof.
  eexists; eexists.
  edestruct (submission_id_format script scripted_run table table_add table_commit plain_repr
               test_request 0x1a2b3c4d5e6f708192a3b4c5d6e7f809 (lit "2025-01-01T00:00:00")
               (backend_state advisor_answers)) as (_ & Hid);
    [ vm_compute; reflexivity | ].
  split; [vm_compute; reflexivity|]. split; [exact Hid | vm_compute; reflexivity].
Defined.

Lemma failed_check_writes_nothing_witness :
  exists s' e,
    submit_paper scripted_run table_add table_commit plain_repr test_request
      7 (lit "2025-01-01T00:00:00") (backend_state [inl boom]) = (s', inl e)
    /\ db s' = empty_table.
Proof.
  eexists; eexists. split.
  - apply (failed_check_writes_nothing script scripted_run table table_add table_commit
             plain_repr test_request 7 (lit "2025-01-01T00:00:00") (backend_state [inl boom])).
    vm_compute. reflexivity.
  - reflexivity.
Defined.

(* ================================================================== *)
(** ** More on the literature client *)

Lemma slice_to_length (n : nat) (obj : value) (l : list value) :
  slice_to n obj = inr l -> List.length l <= n.
Proof.
  destruct obj; simpl; intro H; try discriminate; injection H as <-.
  - rewrite length_map, length_firstn. lia.
  - rewrite length_firstn. lia.
Qed.



Lemma all_str_spec (l : list value) (ss : list str) :
  all_str l = inr ss <-> l = map VStr ss.
Proof.
  revert ss; induction l as [|v l IH]; intros ss; simpl.
  - split; intro H.
    + injection H as <-. reflexivity.
    + destruct ss; [reflexivity | discriminate].
  - destruct v as [ | b | z | bits | s | items | kv ];
      try (split; intro H; [discriminate | destruct ss; discriminate]).
    split; intro H.
    + destruct (all_str l) as [e|ss'] eqn:Hl; [discriminate|].
      injection H as <-. simpl. f_equal. now apply IH.
    + destruct ss as [|s' ss]; [discriminate|]. simpl in H. injection H as -> Hl.
      apply IH in Hl. now rewrite Hl.
Qed.

Lemma all_str_raises (l : list value) (e : exn) : all_str l = inl e -> e = TypeError.
Proof.
  induction l as [|v l IH]; simpl; [discriminate|].
  destruct v; try (intro H; now injection H as <-).
  destruct (all_str l) as [e'|ss]; [|discriminate].
  intro H. injection H as <-. now apply IH.
Qed.

Lemma all_str_not_str (l : list value) (v : value) :
  In v l -> (forall s, v <> VStr s) -> all_str l = inl TypeError.
Proof.
  intros Hin Hv. destruct (all_str l) as [e|ss] eqn:H.
  - now rewrite (all_str_raises _ _ H).
  - apply all_str_spec in H. subst l. apply in_map_iff in Hin as (s & <- & _).
    now destruct (Hv s).
Qed.

(** The doi of a returned record. *)
Lemma extract_paper_fields (fetch_data : value) (paper_id : str) (p : paper) :
  extract_paper fetch_data paper_id = inr p ->
  exists result paper_data elocationid,
    getitem fetch_data (lit "result") = inr result
    /\ getitem result paper_id = inr paper_data
    /\ py_get paper_data (lit "elocationid") (VStr []) = inr (VStr elocationid)
    /\ doi p = replace (lit "doi: ") [] elocationid.
Proof.
  unfold extract_paper, ebind. intro H.
  destruct (getitem fetch_data (lit "result")) as [e|result] eqn:Hresult; [discriminate|].
  destruct (getitem result paper_id) as [e|paper_data] eqn:Hdata; [discriminate|].
  destruct (py_get paper_data (lit "authors") (VList [])); [discriminate|].
  destruct (slice_to 3 _); [discriminate|].
  destruct (authors_loop [] _); [discriminate|].
  destruct (py_get paper_data (lit "title") (VStr [])); [discriminate|].
  destruct (py_get paper_data (lit "fulljournalname") (VStr [])); [discriminate|].
  destruct (py_get paper_data (lit "pubdate") (VStr [])); [discriminate|].
  destruct (py_get paper_data (lit "elocationid") (VStr [])) as [e|eloc] eqn:Heloc;
    [discriminate|].
  destruct eloc as [ | | | | elocationid | | ]; try discriminate.
  simpl in H. injection H as <-.
  exists result, paper_data, elocationid. now repeat split.
Qed.

Lemma replace_from_skip (a old new s : str) :
  replace_from (List.length a) old new (a ++ s) = replace_from 0 old new s.
Proof.
  induction a as [|c a IH]; [reflexivity | exact IH].
Qed.

Lemma replace_absent (old new s : str) :
  str_in old s = false -> replace old new s = s.
Proof.
  unfold replace. induction s as [|c s IH]; intro H; [reflexivity|].
  simpl in H. apply orb_false_iff in H as [Hhere Hrest].
  simpl replace_from. simpl in Hhere. rewrite Hhere. now rewrite (IH Hrest).
Qed.

Lemma replace_prefix (c : char) (old new s : str) :
  replace (c :: old) new ((c :: old) ++ s) = new ++ replace (c :: old) new s.
Proof.
  unfold replace.
  change (replace_from 0 (c :: old) new ((c :: old) ++ s))
    with (if startswith (c :: old) ((c :: old) ++ s)
          then new ++ replace_from (List.length (c :: old) - 1) (c :: old) new (old ++ s)
          else c :: replace_from 0 (c :: old) new (old ++ s)).
  rewrite startswith_app.
  replace (List.length (c :: old) - 1) with (List.length old) by (simpl; lia).
  now rewrite replace_from_skip.
Qed.

Section ClientMore.

Variable Net : Type.
Variable requests_get : str -> list (str * value) -> M Net response.
Variable cfg : config.
Variable print : str -> M Net unit.
Variable str_of_exn : exn -> str.

(** After both phases, the result is that of the loop, or that of the
    outer handler for what the loop raised. *)
Lemma search_pubmed_after_fetch (query : str) (max_results : Z) (net net1 net2 : Net)
    (ids : value) (id_strs : list str) (fetch_data : value) :
  id_search requests_get cfg query max_results net = (net1, inr ids) ->
  truthy ids = true ->
  str_items ids = inr id_strs ->
  get_json requests_get (fetch_url cfg) (fetch_params cfg id_strs) net1
    = (net2, inr fetch_data) ->
  search_pubmed requests_get cfg print str_of_exn query max_results net =
    match papers_loop print str_of_exn fetch_data [] id_strs net2 with
    | (net3, inr papers) => (net3, inr papers)
    | (net3, inl e) => search_error_handler print str_of_exn e net3
    end.
Proof.
  intros Hids Htrue Hstrs Hfetch. unfold search_pubmed.
  now rewrite search_pubmed_try_steps, Hids, Htrue, Hstrs, Hfetch.
Qed.

(** X1. Every record [search_pubmed] returns carries one of the ids the
    id-search phase gave, and its link is the PubMed address of that id. *)
Theorem returned_record_link (query : str) (max_results : Z) (net net' : Net)
    (papers : list paper) (p : paper) :
  search_pubmed requests_get cfg print str_of_exn query max_results net = (net', inr papers) ->
  In p papers ->
  link p = lit "https://pubmed.ncbi.nlm.nih.gov/" ++ pmid p ++ lit "/"
  /\ exists net1 ids id_strs,
       id_search requests_get cfg query max_results net = (net1, inr ids)
       /\ str_items ids = inr id_strs
       /\ In (pmid p) id_strs.
Proof.
  intros Hrun Hin.
  destruct (search_pubmed_inv _ _ _ _ _ _ _ _ _ _ _ Hrun Hin)
    as (net1 & ids & id_strs & net2 & fetch_data & Hids & _ & Hstrs & _ & _ & ->).
  destruct (extracted_in _ _ _ Hin) as (paper_id & Hid & Hextract).
  destruct (extract_paper_inv _ _ _ Hextract) as (-> & Hlink & _).
  split; [exact Hlink|]. now exists net1, ids, id_strs.
Qed.

(** X2. No returned record has more than three authors, whatever the
    summary holds under [authors]. *)
Theorem returned_record_authors_bound (query : str) (max_results : Z) (net net' : Net)
    (papers : list paper) (p : paper) :
  search_pubmed requests_get cfg print str_of_exn query max_results net = (net', inr papers) ->
  In p papers ->
  List.length (PubmedUtils.authors p) <= 3.
Proof.
  intros Hrun Hin.
  destruct (search_pubmed_inv _ _ _ _ _ _ _ _ _ _ _ Hrun Hin)
    as (net1 & ids & id_strs & net2 & fetch_data & _ & _ & _ & _ & _ & ->).
  destruct (extracted_in _ _ _ Hin) as (paper_id & _ & Hextract).
  destruct (extract_paper_inv _ _ _ Hextract)
    as (_ & _ & result & paper_data & upstream & first3 & _ & _ & _ & Hslice & ->).
  pose proof (names_length_le first3). pose proof (slice_to_length _ _ _ Hslice). lia.
Qed.


(** X4. When the id list holds anything that is not a string, the
    summaries are not asked for: what follows the id-search phase is the
    outer handler's report of a [TypeError], on the network as that phase
    left it, and the result is the empty list when the report returns. *)
Theorem non_string_id_gives_nothing (query : str) (max_results : Z) (net net1 : Net)
    (items : list value) (v : value) :
  id_search requests_get cfg query max_results net = (net1, inr (VList items)) ->
  In v items ->
  (forall s, v <> VStr s) ->
  search_pubmed requests_get cfg print str_of_exn query max_results net
    = search_error_handler print str_of_exn TypeError net1
  /\ forall net2,
       print (lit "PubMed search error: " ++ str_of_exn TypeError) net1 = (net2, inr tt) ->
       search_pubmed requests_get cfg print str_of_exn query max_results net = (net2, inr []).
Proof.
  intros Hids Hin Hv.
  assert (Hrun : search_pubmed requests_get cfg print str_of_exn query max_results net
                 = search_error_handler print str_of_exn TypeError net1).
  { unfold search_pubmed. rewrite search_pubmed_try_steps, Hids.
    destruct (truthy (VList items)) eqn:Htrue.
    - simpl str_items. now rewrite (all_str_not_str _ _ Hin Hv).
    - destruct items; [contradiction | discriminate]. }
  split; [exact Hrun|].
  intros net2 Hprint. rewrite Hrun. unfold search_error_handler, bind, ret. now rewrite Hprint.
Qed.

(** X5. When the summaries arrive without the key [result], or with
    something under it that is not an object, no record can be extracted:
    however many ids were found, [search_pubmed] returns the empty list,
    unless the [print] of its outer handler raises. *)
Theorem no_result_gives_nothing (query : str) (max_results : Z) (net net1 net2 net' : Net)
    (ids : value) (id_strs : list str) (fetch_data : value) (e : exn)
    (outcome : exn + list paper) :
  id_search requests_get cfg query max_results net = (net1, inr ids) ->
  truthy ids = true ->
  str_items ids = inr id_strs ->
  get_json requests_get (fetch_url cfg) (fetch_params cfg id_strs) net1
    = (net2, inr fetch_data) ->
  getitem fetch_data (lit "result") = inl e ->
  search_pubmed requests_get cfg print str_of_exn query max_results net = (net', outcome) ->
  outcome = inr []
  \/ exists e0 e' net3,
       outcome = inl e'
       /\ print (lit "PubMed search error: " ++ str_of_exn e0) net3 = (net', inl e').
Proof.
  intros Hids Htrue Hstrs Hfetch Hresult H.
  rewrite (search_pubmed_after_fetch _ _ _ _ _ _ _ _ Hids Htrue Hstrs Hfetch) in H.
  assert (Hnone : extracted fetch_data id_strs = []).
  { unfold extracted. clear - Hresult.
    induction id_strs as [|paper_id rest IH]; simpl; [reflexivity|].
    unfold extract_paper at 1, ebind at 1. rewrite Hresult. exact IH. }
  destruct (papers_loop print str_of_exn fetch_data [] id_strs net2)
    as [net3 [e0|result]] eqn:Hloop.
  - unfold search_error_handler, bind, ret in H.
    destruct (print (lit "PubMed search error: " ++ str_of_exn e0) net3)
      as [net4 [e'|[]]] eqn:Hprint; injection H as <- <-.
    + right. now exists e0, e', net3.
    + now left.
  - injection H as _ <-. left.
    rewrite (papers_loop_returns _ _ _ _ _ _ _ _ _ Hloop), Hnone. reflexivity.
Qed.

End ClientMore.

(** X6. A returned record whose summary gives [elocationid] as [doi: ]
    followed by a text without [doi: ] in it has that text as its doi. *)
Theorem doi_prefix_is_stripped (fetch_data result paper_data : value) (paper_id d : str)
    (p : paper) :
  extract_paper fetch_data paper_id = inr p ->
  getitem fetch_data (lit "result") = inr result ->
  getitem result paper_id = inr paper_data ->
  py_get paper_data (lit "elocationid") (VStr []) = inr (VStr (lit "doi: " ++ d)) ->
  str_in (lit "doi: ") d = false ->
  doi p = d.
Proof.
  intros Hextract Hresult Hdata Heloc Hclean.
  destruct (extract_paper_fields _ _ _ Hextract)
    as (result' & paper_data' & elocationid & Hresult' & Hdata' & Heloc' & ->).
  rewrite Hresult in Hresult'. injection Hresult' as <-.
  rewrite Hdata in Hdata'. injection Hdata' as <-.
  assert (Hd : elocationid = lit "doi: " ++ d) by congruence.
  subst elocationid.
  change (lit "doi: ") with (100%N :: lit "oi: ") in *.
  rewrite replace_prefix. now apply replace_absent.
Qed.

(** X7. A summary that is an object with none of the keys the extraction
    reads is not skipped: it gives a record with the id, its link, no
    authors, and empty title, journal, date and doi. *)
Theorem bare_summary_gives_empty_record (fetch_data result : value) (paper_id : str)
    (kv : list (str * value)) :
  getitem fetch_data (lit "result") = inr result ->
  getitem result paper_id = inr (VDict kv) ->
  Forall (fun key => lookup key kv = None) summary_keys ->
  extract_paper fetch_data paper_id =
    inr {| pmid := paper_id;
           PubmedUtils.title := VStr [];
           PubmedUtils.authors := [];
           journal := VStr [];
           pubdate := VStr [];
           link := lit "https://pubmed.ncbi.nlm.nih.gov/" ++ paper_id ++ lit "/";
           doi := [] |}.
Proof.
  intros Hresult Hdata Hkeys.
  unfold summary_keys in Hkeys.
  repeat match goal with
         | H : Forall _ (_ :: _) |- _ => inversion H; subst; clear H
         end.
  unfold extract_paper, ebind, py_get. rewrite Hresult, Hdata.
  repeat match goal with
         | H : lookup _ kv = None |- _ => rewrite H; clear H
         end.
  reflexivity.
Qed.

Lemma returned_record_link_witness :
  exists p,
    In p (returned (snd (search_pubmed canned_get test_cfg ascii_print show_exn
                           (lit "CRISPR") 5 all_well)))
    /\ link p = lit "https://pubmed.ncbi.nlm.nih.gov/101/".
Proof.
  eexists. split; [left; reflexivity|].
  edestruct (returned_record_link canned canned_get test_cfg ascii_print show_exn
               (lit "CRISPR") 5 all_well)
    as (Hlink & _); [ vm_compute; reflexivity | left; reflexivity | ].
  refine (eq_trans Hlink _). vm_compute. reflexivity.
Defined.

Lemma returned_record_authors_bound_witness :
  exists p,
    In p (returned (snd (search_pubmed canned_get test_cfg ascii_print show_exn
                           (lit "CRISPR") 5 five_named)))
    /\ List.length (PubmedUtils.authors p) <= 3.
Proof.
  eexists. split; [left; reflexivity|].
  eapply (returned_record_authors_bound canned canned_get test_cfg ascii_print show_exn
            (lit "CRISPR") 5 five_named);
    [ vm_compute; reflexivity | left; reflexivity ].
Defined.


Lemma non_string_id_gives_nothing_witness :
  search_pubmed canned_get test_cfg ascii_print show_exn (lit "CRISPR") 5 numeric_ids
    = ([], inr []).
Proof.
  eapply (non_string_id_gives_nothing canned canned_get test_cfg ascii_print show_exn
            (lit "CRISPR") 5 numeric_ids [] [VStr (lit "101"); VInt 102] (VInt 102)).
  - vm_compute. reflexivity.
  - right. left. reflexivity.
  - discriminate.
  - reflexivity.
Defined.

Lemma no_result_gives_nothing_witness :
  snd (search_pubmed canned_get test_cfg ascii_print show_exn (lit "CRISPR") 5 no_result_key)
    = inr [].
Proof.
  edestruct (no_result_gives_nothing canned canned_get test_cfg ascii_print show_exn
               (lit "CRISPR") 5 no_result_key)
    as [Hnone | (e0 & e' & net3 & Hraised & _)];
    [ vm_compute; reflexivity | reflexivity | vm_compute; reflexivity
    | vm_compute; reflexivity | vm_compute; reflexivity | apply surjective_pairing | | ].
  - exact Hnone.
  - vm_compute in Hraised. discriminate.
Defined.

Lemma doi_prefix_is_stripped_witness :
  exists p, extract_paper one_summary (lit "101") = inr p /\ doi p = lit "10.1/x".
Proof.
  eexists. split; [vm_compute; reflexivity|].
  eapply (doi_prefix_is_stripped one_summary _ _ (lit "101"));
    [ vm_compute; reflexivity | vm_compute; reflexivity | vm_compute; reflexivity
    | vm_compute; reflexivity | vm_compute; reflexivity ].
Defined.

Lemma bare_summary_gives_empty_record_witness :
  exists p,
    extract_paper bare_summary (lit "101") = inr p
    /\ PubmedUtils.title p = VStr [] /\ PubmedUtils.authors p = [].
Proof.
  eexists. split.
  - eapply (bare_summary_gives_empty_record bare_summary);
      [ vm_compute; reflexivity | vm_compute; reflexivity | repeat constructor ].
  - split; reflexivity.
Defined.

(* ================================================================== *)
(** ** More on the coordinator and the sequencer *)

Lemma collect_loop_yields (l : list item) (rest : stream) (messages : list str) :
  collect_loop messages (yields l rest) = collect_loop (messages ++ texts l) rest.
Proof.
  revert messages; induction l as [|m l IH]; intro messages; simpl.
  - now rewrite app_nil_r.
  - destruct m as [source c|]; rewrite IH; [|reflexivity].
    now rewrite <- app_assoc.
Qed.

(** X8. A stream that raises while it is read makes [_collect_messages]
    raise the same exception, however many messages came before: the text
    collected so far is not returned. *)
Theorem broken_stream_gives_no_text (l : list item) (e : exn) :
  _collect_messages (yields l (Broken e)) = inl e.
Proof.
  unfold _collect_messages. rewrite collect_loop_yields. reflexivity.
Qed.

Lemma join_length (sep : str) (parts : list str) :
  List.length (join sep parts) =
    list_sum (map (@List.length char) parts) + List.length sep * (List.length parts - 1).
Proof.
  induction parts as [|x rest IH]; [simpl; lia|].
  destruct rest as [|y rest].
  - simpl. lia.
  - change (join sep (x :: y :: rest)) with (x ++ sep ++ join sep (y :: rest)).
    rewrite !length_app, IH. simpl. lia.
Qed.

(** X9. The text [_collect_messages] returns for a stream that ends is as
    long as the texts of the messages with content together, plus one
    newline between each two of them: there is no newline before the first
    text or after the last, and a stream without such messages gives the
    empty string. *)
Theorem collected_text_length (l : list item) :
  exists text,
    _collect_messages (stream_of l) = inr text
    /\ List.length text =
         list_sum (map (@List.length char) (texts l)) + (List.length (texts l) - 1).
Proof.
  exists (join nl (texts l)). split.
  - unfold _collect_messages. rewrite collect_loop_stream_of. reflexivity.
  - rewrite join_length. simpl. lia.
Qed.

(** X11. The prompt of [explain_concept] begins with the base instruction,
    ends with the fixed request, and has the concept in it whole, and the
    context too when it is a non-empty string. *)
Theorem explain_prompt_embeds (concept : str) (context : option str) :
  startswith (lit "Explain this concept in simple terms: ") (explain_prompt concept context)
    = true
  /\ (exists before, explain_prompt concept context = before ++ explain_request)
  /\ str_in concept (explain_prompt concept context) = true
  /\ match context with
     | Some (c :: cs) => str_in (c :: cs) (explain_prompt concept context) = true
     | Some [] | None => True
     end.
Proof.
  assert (Hbase : forall rest,
             startswith (lit "Explain this concept in simple terms: ")
               ((explain_base concept ++ rest)) = true).
  { intro rest. unfold explain_base. rewrite <- app_assoc. apply startswith_app. }
  assert (Hconcept : forall rest, str_in concept (explain_base concept ++ rest) = true).
  { intro rest. unfold explain_base. rewrite <- app_assoc. apply str_in_intro. }
  destruct context as [[|c cs]|]; unfold explain_prompt.
  - split; [apply Hbase|]. split; [now exists (explain_base concept)|].
    split; [apply Hconcept | exact I].
  - rewrite <- app_assoc. split; [apply Hbase|]. split; [|split; [apply Hconcept|]].
    + exists (explain_base concept ++ context_block (c :: cs)). now rewrite <- app_assoc.
    + unfold context_block.
      replace (explain_base concept ++ (nl ++ nl ++ lit "Context: " ++ c :: cs) ++ explain_request)
        with ((explain_base concept ++ nl ++ nl ++ lit "Context: ") ++ (c :: cs) ++ explain_request)
        by now rewrite <- !app_assoc.
      apply str_in_intro.
  - split; [apply Hbase|]. split; [now exists (explain_base concept)|].
    split; [apply Hconcept | exact I].
Qed.

(** X12. The prompt of [check_paper] has the title in it whole, whatever
    its length; a content of at most 2000 characters is in it whole too,
    and is followed by [...] although nothing of it was cut. *)
Theorem short_content_is_embedded (title content : str) :
  List.length content <= 2000 ->
  str_in title (check_prompt title content) = true
  /\ str_in (content ++ lit "...") (check_prompt title content) = true.
Proof.
  intro Hshort. unfold check_prompt. rewrite firstn_all2 by exact Hshort. split.
  - replace (lit "Check this paper's formatting:" ++ nl ++ nl ++ lit "Title: " ++ title ++ nl ++
             nl ++ lit "Content:" ++ nl ++ content ++ lit "..." ++ nl ++ nl ++ lit "Provide:" ++
             nl ++ lit "1. Formatting score (0-100)" ++ nl ++ lit "2. Missing sections" ++ nl ++
             lit "3. Recommendations" ++ nl ++ lit "4. Overall assessment")
      with ((lit "Check this paper's formatting:" ++ nl ++ nl ++ lit "Title: ") ++ title ++
            (nl ++ nl ++ lit "Content:" ++ nl ++ content ++ lit "..." ++ nl ++ nl ++
             lit "Provide:" ++ nl ++ lit "1. Formatting score (0-100)" ++ nl ++
             lit "2. Missing sections" ++ nl ++ lit "3. Recommendations" ++ nl ++
             lit "4. Overall assessment"))
      by now rewrite <- !app_assoc.
    apply str_in_intro.
  - replace (lit "Check this paper's formatting:" ++ nl ++ nl ++ lit "Title: " ++ title ++ nl ++
             nl ++ lit "Content:" ++ nl ++ content ++ lit "..." ++ nl ++ nl ++ lit "Provide:" ++
             nl ++ lit "1. Formatting score (0-100)" ++ nl ++ lit "2. Missing sections" ++ nl ++
             lit "3. Recommendations" ++ nl ++ lit "4. Overall assessment")
      with ((lit "Check this paper's formatting:" ++ nl ++ nl ++ lit "Title: " ++ title ++ nl ++
             nl ++ lit "Content:" ++ nl) ++ (content ++ lit "...") ++
            (nl ++ nl ++ lit "Provide:" ++ nl ++ lit "1. Formatting score (0-100)" ++ nl ++
             lit "2. Missing sections" ++ nl ++ lit "3. Recommendations" ++ nl ++
             lit "4. Overall assessment"))
      by now rewrite <- !app_assoc.
    apply str_in_intro.
Qed.

Section Singleton.

Variable World : Type.
Variable Instance : Type.
Variable ResearchOrchestrator : M World Instance.

(** X13. Once [get_orchestrator] has returned an orchestrator, every later
    call returns the same one and constructs nothing; a call in which the
    construction raises leaves the variable empty, so that the next call
    constructs again. *)
Theorem get_orchestrator_reuses (g g1 : globals World Instance) (r : exn + Instance) :
  get_orchestrator ResearchOrchestrator g = (g1, r) ->
  match r with
  | inr o => orchestrator g1 = Some o
             /\ get_orchestrator ResearchOrchestrator g1 = (g1, inr o)
  | inl e => orchestrator g = None /\ orchestrator g1 = None
  end.
Proof.
  unfold get_orchestrator. destruct (orchestrator g) as [o|] eqn:Hg.
  - intro H. injection H as <- <-. now rewrite Hg.
  - destruct (ResearchOrchestrator (world g)) as [w [e|o]]; intro H; injection H as <- <-;
      simpl; auto.
Qed.

End Singleton.

Section SequencerMore.

Variable Team : Type.
Variable run_stream : TextMessage -> M Team stream.

(** A coordinator run that returns a text: [run_stream] returned a stream
    and the text was collected from it. *)
Lemma run_and_collect_returns (prompt text : str) (s s' : Orchestrator.st Team) :
  run_and_collect run_stream prompt s = (s', inr text) ->
  exists result,
    run_stream (user_task prompt) (team s) = (team s', inr result)
    /\ _collect_messages result = inr text.
Proof.
  unfold run_and_collect, bind, team_run_stream, pure_of.
  destruct (run_stream (user_task prompt) (team s)) as [team' [e'|result]]; intro H.
  - discriminate.
  - injection H as <- He. now exists result.
Qed.


(** X14. A text that [explain_concept] returns is the text collected from
    the stream of one coordinator run, made on its prompt; the team was
    handed this prompt and nothing else. *)
Theorem explanation_is_collected_text (concept : str) (context : option str)
    (s s' : Orchestrator.st Team) (explanation : str) :
  Orchestrator.explain_concept run_stream concept context s = (s', inr explanation) ->
  tasks s' = tasks s ++ [user_task (explain_prompt concept context)]
  /\ exists result,
       run_stream (user_task (explain_prompt concept context)) (team s)
         = (team s', inr result)
       /\ _collect_messages result = inr explanation.
Proof.
  unfold Orchestrator.explain_concept. intro H. split.
  - exact (run_and_collect_tasks _ _ _ _ _ _ H).
  - exact (run_and_collect_returns _ _ _ _ H).
Qed.

(** X15. A dictionary that [check_paper] returns has one item, under the
    key [feedback]: the text collected from the stream of one coordinator
    run, made on its prompt; the team was handed this prompt and nothing
    else. *)
Theorem feedback_is_collected_text (title content : str)
    (s s' : Orchestrator.st Team) (response : value) :
  Orchestrator.check_paper run_stream title content s = (s', inr response) ->
  tasks s' = tasks s ++ [user_task (check_prompt title content)]
  /\ exists result feedback_text,
       run_stream (user_task (check_prompt title content)) (team s) = (team s', inr result)
       /\ _collect_messages result = inr feedback_text
       /\ response = VDict [ (lit "feedback", VStr feedback_text) ].
Proof.
  unfold Orchestrator.check_paper, bind, ret.
  destruct (run_and_collect run_stream (check_prompt title content) s)
    as [s1 [e1|feedback_text]] eqn:Hrun; intro H; [discriminate|].
  injection H as <- <-.
  split; [exact (run_and_collect_tasks _ _ _ _ _ _ Hrun)|].
  destruct (run_and_collect_returns _ _ _ _ Hrun) as (result & Hstream & Hcollect).
  now exists result, feedback_text.
Qed.

End SequencerMore.


Lemma short_content_is_embedded_witness :
  str_in (lit "Abstract. Body." ++ lit "...")
    (check_prompt (lit "On graphs") (lit "Abstract. Body.")) = true.
Proof.
  apply (short_content_is_embedded (lit "On graphs") (lit "Abstract. Body.")).
  vm_compute. repeat constructor.
Defined.

Lemma get_orchestrator_reuses_witness :
  get_orchestrator counting {| world := 1; orchestrator := Some 0 |}
    = ({| world := 1; orchestrator := Some 0 |}, inr 0).
Proof.
  apply (get_orchestrator_reuses nat nat counting {| world := 0; orchestrator := None |}
           {| world := 1; orchestrator := Some 0 |} (inr 0)).
  reflexivity.
Defined.

Lemma explanation_is_collected_text_witness :
  exists s' explanation,
    Orchestrator.explain_concept scripted_run (lit "overfitting") None (fresh three_runs)
      = (s', inr explanation)
    /\ tasks s' = [user_task (explain_prompt (lit "overfitting") None)].
Proof.
  eexists; eexists. split; [vm_compute; reflexivity|].
  edestruct (explanation_is_collected_text script scripted_run (lit "overfitting") None
               (fresh three_runs)) as (Htasks & _); [vm_compute; reflexivity|].
  refine (eq_trans Htasks _). reflexivity.
Defined.

Lemma feedback_is_collected_text_witness :
  exists s' response,
    Orchestrator.check_paper scripted_run (lit "On graphs") (lit "Body")
      (fresh advisor_answers) = (s', inr response)
    /\ tasks s' = [user_task (check_prompt (lit "On graphs") (lit "Body"))].
Proof.
  eexists; eexists. split; [vm_compute; reflexivity|].
  edestruct (feedback_is_collected_text script scripted_run (lit "On graphs") (lit "Body")
               (fresh advisor_answers)) as (Htasks & _); [vm_compute; reflexivity|].
  refine (eq_trans Htasks _). reflexivity.
Defined.

(* ================================================================== *)
(** ** More on the endpoints *)

(** At bit 96 and above the integer of [uuid4] is the random one: the
    variant and version bits lie below. *)
Lemma uuid4_int_high_bits (random : Z) :
  Z.shiftr (uuid4_int random) 96 = Z.shiftr random 96.
Proof.
  apply Z.bits_inj'. intros n Hn. rewrite !Z.shiftr_spec by assumption.
  unfold uuid4_int.
  rewrite Z.lor_spec, Z.land_spec, Z.lor_spec, Z.land_spec, !Z.lnot_spec by lia.
  assert (Hbit : forall c : Z, (0 <= c)%Z -> (Z.log2 c < 96)%Z -> Z.testbit c (n + 96) = false).
  { intros c Hc Hlog. apply Z.bits_above_log2; [exact Hc | lia]. }
  rewrite (Hbit (Z.shiftl 0xc000 48)), (Hbit (Z.shiftl 0x8000 48)),
    (Hbit (Z.shiftl 0xf000 64)), (Hbit (Z.shiftl 4 76)) by (vm_compute; congruence).
  simpl. now rewrite !orb_false_r, !andb_true_r.
Qed.

Lemma hex_prefix_of_high_bits (int : Z) :
  firstn 8 (hex int) =
    map (fun k => hexdigit (Z.land (Z.shiftr (Z.shiftr int 96) (4 * Z.of_nat k)) 15))
        (rev (seq 0 8)).
Proof.
  unfold hex. rewrite firstn_map.
  change (firstn 8 (rev (seq 0 32))) with (map (fun k => k + 24) (rev (seq 0 8))).
  rewrite map_map. apply map_ext. intro k.
  rewrite Z.shiftr_shiftr by lia. do 3 f_equal. lia.
Qed.

(** X16. The identifier of a submission takes only the 32 highest of the
    128 random bits: draws that agree on them give the same identifier. *)
Theorem submission_id_of_high_bits (random random' : Z) :
  Z.shiftr random 96 = Z.shiftr random' 96 ->
  new_submission_id random = new_submission_id random'.
Proof.
  intro H. unfold new_submission_id.
  now rewrite !hex_prefix_of_high_bits, !uuid4_int_high_bits, H.
Qed.

Section EndpointsMore.

Variable Team : Type.
Variable run_stream : TextMessage -> M Team stream.
Variable Session : Type.
Variable db_add : PaperSubmission -> M Session unit.
Variable db_commit : M Session unit.
Variable repr : str -> str.
Variable query_first : str -> M Session (option Endpoints.StoredSubmission).

(** X17. When [submit_paper] returns, the formatting check has returned,
    then [db.add] was given one row and returned, then [db.commit]
    returned, in this order; the row has the identifier of the response,
    the title, content and email of the request, its authors joined by a
    comma and a space, and the status [submitted]. *)
Theorem submitted_row (request : PaperSubmitRequest) (random : Z) (now : str)
    (s s' : Backend.st Team Session) (response : value) :
  submit_paper run_stream db_add db_commit repr request random now s = (s', inr response) ->
  exists o1 feedback_dict d1 d2,
    Orchestrator.check_paper run_stream (req_title request) (req_content request) (orch s)
      = (o1, inr feedback_dict)
    /\ db_add {| submission_id := new_submission_id random;
                 Backend.title := req_title request;
                 Backend.authors := join (lit ", ") (req_authors request);
                 Backend.content := req_content request;
                 professor_email := req_professor_email request;
                 status := lit "submitted";
                 feedback := str_of_feedback repr feedback_dict |} (db s) = (d1, inr tt)
    /\ db_commit d1 = (d2, inr tt)
    /\ s' = {| orch := o1; db := d2 |}
    /\ getitem response (lit "submission_id") = inr (VStr (new_submission_id random))
    /\ getitem response (lit "status") = inr (VStr (lit "submitted")).
Proof.
  unfold submit_paper, submit_paper_try. unfold bind at 1. unfold with_orch at 1.
  destruct (Orchestrator.check_paper run_stream (req_title request) (req_content request) (orch s))
    as [o1 [e|feedback_dict]]; [discriminate|].
  unfold bind at 1. unfold with_db at 1. cbn [orch db].
  destruct (db_add _ (db s)) as [d1 [e|[]]] eqn:Hadd; [discriminate|].
  unfold bind at 1. unfold with_db at 1. cbn [orch db].
  destruct (db_commit d1) as [d2 [e|[]]] eqn:Hcommit; [discriminate|].
  unfold ret. intro H. injection H as <- <-.
  exists o1, feedback_dict, d1, d2. repeat split; assumption.
Qed.

(** X18. When the formatting check returns and [db.add] or [db.commit]
    raises, [submit_paper] raises an [HTTPException] with status 500 that
    carries the exception, and returns no identifier; when it is [db.add]
    that raises, [db.commit] is not run. *)
Theorem failed_write_reports_500 (request : PaperSubmitRequest) (random : Z) (now : str)
    (s : Backend.st Team Session) (o1 : Orchestrator.st Team) (feedback_dict : value)
    (d1 : Session) (r : exn + unit) (e : exn) :
  Orchestrator.check_paper run_stream (req_title request) (req_content request) (orch s)
    = (o1, inr feedback_dict) ->
  db_add {| submission_id := new_submission_id random;
            Backend.title := req_title request;
            Backend.authors := join (lit ", ") (req_authors request);
            Backend.content := req_content request;
            professor_email := req_professor_email request;
            status := lit "submitted";
            feedback := str_of_feedback repr feedback_dict |} (db s) = (d1, r) ->
  (r = inl e \/ exists d2, r = inr tt /\ db_commit d1 = (d2, inl e)) ->
  exists d',
    submit_paper run_stream db_add db_commit repr request random now s
      = ({| orch := o1; db := d' |}, inl (HTTPException 500 e))
    /\ (r = inl e -> d' = d1).
Proof.
  intros Hcheck Hadd Hfail.
  unfold submit_paper, submit_paper_try. unfold bind at 1. unfold with_orch at 1.
  rewrite Hcheck. unfold bind at 1. unfold with_db at 1. cbn [orch db]. rewrite Hadd.
  destruct Hfail as [-> | (d2 & -> & Hcommit)].
  - exists d1. split; reflexivity.
  - unfold bind at 1. unfold with_db at 1. cbn [orch db]. rewrite Hcommit.
    exists d2. split; [reflexivity | discriminate].
Qed.

(** X19. A stage of the research workflow that raises makes the research
    endpoint raise an [HTTPException] with status 500 that carries the
    exception; no part of the result is returned and the database is not
    touched. *)
Theorem research_endpoint_reports_500 (request : Endpoints.ResearchRequest)
    (s : Backend.st Team Session) (o' : Orchestrator.st Team) (e : exn) :
  stage_raises run_stream (Endpoints.topic request) (Endpoints.max_papers request) (orch s) o' e ->
  Endpoints.run_research run_stream request s
    = ({| orch := o'; db := db s |}, inl (HTTPException 500 e)).
Proof.
  intro H. unfold Endpoints.run_research, with_orch, run_research_workflow.
  destruct H as [s1 e1 HA | s1 lit1 s2 e2 HA HB | s1 lit1 s2 syn2 s3 e3 HA HB HC].
  - unfold bind at 1. now rewrite HA.
  - unfold bind at 1. rewrite HA. unfold bind at 1. now rewrite HB.
  - unfold bind at 1. rewrite HA. unfold bind at 1. rewrite HB.
    unfold bind at 1. now rewrite HC.
Qed.

(** X20. For an identifier the store does not know, the status endpoint
    raises the [HTTPException] with status 404 and the detail [Submission
    not found], as it is and not as a 500; the orchestrator is not touched. *)
Theorem unknown_submission_is_404 (submission_id : str) (s : Backend.st Team Session)
    (d1 : Session) :
  query_first submission_id (db s) = (d1, inr None) ->
  Endpoints.get_submission_status query_first submission_id s
    = ({| orch := orch s; db := d1 |}, inl Endpoints.not_found).
Proof.
  intro H. unfold Endpoints.get_submission_status, Endpoints.get_submission_status_try.
  unfold bind, with_db. now rewrite H.
Qed.

(** X21. For a row the store knows, the status endpoint returns the
    identifier, title, status and feedback of the row and the text of its
    time of submission; a row without a time of submission gives an
    [HTTPException] with status 500. *)
Theorem known_submission_status (submission_id : str) (s : Backend.st Team Session)
    (d1 : Session) (row : Endpoints.StoredSubmission) :
  query_first submission_id (db s) = (d1, inr (Some row)) ->
  Endpoints.get_submission_status query_first submission_id s
    = ({| orch := orch s; db := d1 |},
       match Endpoints.submitted_at row with
       | Some submitted =>
           inr (VDict [ (lit "submission_id", VStr (Backend.submission_id (Endpoints.stored row)));
                        (lit "title", VStr (Backend.title (Endpoints.stored row)));
                        (lit "status", VStr (Backend.status (Endpoints.stored row)));
                        (lit "submitted_at", VStr submitted);
                        (lit "feedback", VStr (Backend.feedback (Endpoints.stored row))) ])
       | None => inl (HTTPException 500 AttributeError)
       end).
Proof.
  intro H. unfold Endpoints.get_submission_status, Endpoints.get_submission_status_try.
  unfold bind at 1. unfold with_db. rewrite H.
  destruct (Endpoints.submitted_at row); reflexivity.
Qed.

(** X22. When the query itself raises, the status endpoint raises an
    [HTTPException]: the one the query raised, if it raised one, and
    otherwise one with status 500 that carries the exception. *)
Theorem failed_query_status (submission_id : str) (s : Backend.st Team Session)
    (d1 : Session) (e : exn) :
  query_first submission_id (db s) = (d1, inl e) ->
  Endpoints.get_submission_status query_first submission_id s
    = ({| orch := orch s; db := d1 |},
       inl (match e with
            | HTTPException _ _ => e
            | _ => HTTPException 500 e
            end)).
Proof.
  intro H. unfold Endpoints.get_submission_status, Endpoints.get_submission_status_try.
  unfold bind at 1. unfold with_db. rewrite H. now destruct e.
Qed.

End EndpointsMore.

Lemma submission_id_of_high_bits_witness :
  new_submission_id 0 = new_submission_id 1.
Proof.
  apply submission_id_of_high_bits. reflexivity.
Defined.

Lemma submitted_row_witness :
  exists s' response,
    submit_paper scripted_run table_add table_commit plain_repr test_request
      7 (lit "2025-01-01T00:00:00") (backend_state advisor_answers) = (s', inr response)
    /\ map Backend.authors (rows (db s')) = [lit "A. One, B. Two"].
Proof.
  eexists; eexists. split; [vm_compute; reflexivity|].
  edestruct (submitted_row script scripted_run table table_add table_commit plain_repr
               test_request 7 (lit "2025-01-01T00:00:00") (backend_state advisor_answers))
    as (o1 & feedback_dict & d1 & d2 & _ & _ & _ & Hs & _); [vm_compute; reflexivity|].
  vm_compute. reflexivity.
Defined.

Lemma failed_write_reports_500_witness :
  exists s',
    submit_paper scripted_run table_add failing_commit plain_repr test_request
      7 (lit "2025-01-01T00:00:00") (backend_state advisor_answers)
      = (s', inl (HTTPException 500 boom)).
Proof.
  edestruct (failed_write_reports_500 script scripted_run table table_add failing_commit
               plain_repr test_request 7 (lit "2025-01-01T00:00:00")
               (backend_state advisor_answers)) as (d' & Hrun & _);
    [ vm_compute; reflexivity | vm_compute; reflexivity
    | right; eexists; split; [reflexivity | vm_compute; reflexivity] | ].
  eexists. exact Hrun.
Defined.

Lemma research_endpoint_reports_500_witness :
  exists s',
    Endpoints.run_research scripted_run
      {| Endpoints.topic := lit "t"; Endpoints.max_papers := 5 |}
      (backend_state raises_in_synthesis)
      = (s', inl (HTTPException 500 boom))
    /\ db s' = empty_table.
Proof.
  eexists. split.
  - apply (research_endpoint_reports_500 script scripted_run table
             {| Endpoints.topic := lit "t"; Endpoints.max_papers := 5 |}
             (backend_state raises_in_synthesis)).
    eapply synthesis_raises; [vm_compute; reflexivity | vm_compute; reflexivity].
  - reflexivity.
Defined.

Lemma unknown_submission_is_404_witness :
  Endpoints.get_submission_status (Endpoints.answers (inr None)) (lit "SUB-00000000")
    (backend_state [])
    = (backend_state [], inl Endpoints.not_found).
Proof.
  apply (unknown_submission_is_404 script table (Endpoints.answers (inr None))
           (lit "SUB-00000000") (backend_state []) empty_table).
  reflexivity.
Defined.

Lemma known_submission_status_witness :
  exists response,
    Endpoints.get_submission_status (Endpoints.answers (inr (Some sample_stored)))
      (lit "SUB-1A2B3C4D") (backend_state [])
      = (backend_state [], inr response)
    /\ getitem response (lit "title") = inr (VStr (lit "On graphs")).
Proof.
  eexists. split.
  - apply (known_submission_status script table (Endpoints.answers (inr (Some sample_stored)))
             (lit "SUB-1A2B3C4D") (backend_state []) empty_table sample_stored).
    reflexivity.
  - reflexivity.
Defined.

Lemma failed_query_status_witness :
  Endpoints.get_submission_status (Endpoints.answers (inl boom)) (lit "SUB-1A2B3C4D")
    (backend_state [])
    = (backend_state [], inl (HTTPException 500 boom)).
Proof.
  apply (failed_query_status script table (Endpoints.answers (inl boom))
           (lit "SUB-1A2B3C4D") (backend_state []) empty_table boom).
  reflexivity.
Defined.

(* ================================================================== *)
(** ** The authors field, from the form to the row *)

Import Frontend.

Lemma split_not_nil (sep : char) (s : str) : split sep s <> [].
Proof.
  destruct s as [|c s]; simpl; [discriminate|].
  destruct (N.eqb c sep); [discriminate|].
  destruct (split sep s); discriminate.
Qed.

Lemma split_pieces (sep : char) (s : str) :
  Forall (fun piece => ~ In sep piece) (split sep s).
Proof.
  induction s as [|c s IH]; simpl.
  - repeat constructor. intros [].
  - destruct (N.eqb c sep) eqn:Hc.
    + constructor; [intros [] | exact IH].
    + destruct (split sep s) as [|piece pieces].
      * repeat constructor. intros [->|[]]. now rewrite N.eqb_refl in Hc.
      * inversion IH as [|? ? Hpiece Hpieces]; subst. constructor; [|exact Hpieces].
        intros [->|Hin]; [now rewrite N.eqb_refl in Hc | now apply Hpiece].
Qed.

Lemma split_count (sep : char) (s : str) :
  List.length (split sep s) = 1 + count_occ N.eq_dec s sep.
Proof.
  induction s as [|c s IH]; [reflexivity|].
  simpl split. simpl count_occ. destruct (N.eqb c sep) eqn:Hc.
  - apply N.eqb_eq in Hc. subst c. destruct (N.eq_dec sep sep); [|contradiction].
    simpl. now rewrite IH.
  - apply N.eqb_neq in Hc. destruct (N.eq_dec c sep); [contradiction|].
    destruct (split sep s); simpl in *; lia.
Qed.

(** Splitting a text at a separator and joining the pieces with the
    separator gives the text back; no piece has the separator in it, and
    there is one piece more than there are separators in the text, so the
    empty text gives one empty piece. *)
Lemma split_then_join (sep : char) (s : str) :
  join [sep] (split sep s) = s
  /\ Forall (fun piece => ~ In sep piece) (split sep s)
  /\ List.length (split sep s) = 1 + count_occ N.eq_dec s sep.
Proof.
  split; [|split; [apply split_pieces | apply split_count]].
  induction s as [|c s IH]; [reflexivity|].
  simpl split. destruct (N.eqb c sep) eqn:Hc.
  - apply N.eqb_eq in Hc. subst c.
    pose proof (split_not_nil sep s) as Hne.
    destruct (split sep s) as [|piece pieces]; [contradiction|].
    change (join [sep] ([] :: piece :: pieces)) with (sep :: join [sep] (piece :: pieces)).
    now rewrite IH.
  - pose proof (split_not_nil sep s) as Hne.
    destruct (split sep s) as [|piece pieces]; [contradiction|].
    destruct pieces as [|piece' pieces].
    + simpl in *. now rewrite IH.
    + change (join [sep] ((c :: piece) :: piece' :: pieces))
        with (c :: (piece ++ [sep] ++ join [sep] (piece' :: pieces))).
      change (join [sep] (piece :: piece' :: pieces))
        with (piece ++ [sep] ++ join [sep] (piece' :: pieces)) in IH.
      now rewrite IH.
Qed.

Lemma lstrip_length (s : str) : List.length (lstrip s) <= List.length s.
Proof.
  induction s as [|c s IH]; simpl; [lia|]. destruct (is_space c); simpl; lia.
Qed.

Lemma lstrip_idem (s : str) : lstrip (lstrip s) = lstrip s.
Proof.
  induction s as [|c s IH]; [reflexivity|].
  simpl. destruct (is_space c) eqn:Hc; [exact IH|]. simpl. now rewrite Hc.
Qed.

Lemma lstrip_app_stop (u v : str) (c : char) :
  is_space c = false -> lstrip (u ++ c :: v) = lstrip u ++ c :: v.
Proof.
  intro Hc. induction u as [|x u IH]; simpl.
  - now rewrite Hc.
  - destruct (is_space x); [exact IH | reflexivity].
Qed.

Lemma lstrip_in (s : str) (x : char) : In x (lstrip s) -> In x s.
Proof.
  induction s as [|c s IH]; simpl; [easy|].
  destruct (is_space c); [intro H; right; now apply IH | easy].
Qed.

Lemma lstrip_of_rstrip (t : str) : lstrip t = t -> lstrip (rstrip t) = rstrip t.
Proof.
  destruct t as [|c t]; [reflexivity|]. intro Ht.
  assert (Hc : is_space c = false).
  { destruct (is_space c) eqn:Hc; [|reflexivity]. simpl in Ht. rewrite Hc in Ht.
    pose proof (lstrip_length t) as Hlen. rewrite Ht in Hlen. simpl in Hlen. lia. }
  unfold rstrip. simpl rev. rewrite (lstrip_app_stop _ [] c Hc), rev_unit.
  simpl. now rewrite Hc.
Qed.

Lemma strip_idem (s : str) : strip (strip s) = strip s.
Proof.
  unfold strip. rewrite (lstrip_of_rstrip (lstrip s) (lstrip_idem s)).
  unfold rstrip. now rewrite rev_involutive, lstrip_idem.
Qed.

Lemma strip_in (s : str) (x : char) : In x (strip s) -> In x s.
Proof.
  unfold strip, rstrip. intro H. apply in_rev in H. apply lstrip_in in H.
  apply in_rev in H. now apply lstrip_in in H.
Qed.

(** X23. The names the form sends for a typed authors text have no comma
    in them and no white space at either end, and there is one name more
    than there are commas in the text: a name left empty between two
    commas is sent as an empty name. *)
Theorem authors_list_names (authors : str) :
  Forall (fun name => strip name = name /\ ~ In comma name) (authors_list authors)
  /\ List.length (authors_list authors) = 1 + count_occ N.eq_dec authors comma.
Proof.
  unfold authors_list. split.
  - apply Forall_map. eapply Forall_impl; [|apply (split_pieces comma authors)].
    intros piece Hpiece. split; [apply strip_idem|].
    intro Hin. apply Hpiece. now apply strip_in in Hin.
  - rewrite length_map. apply split_count.
Qed.

Lemma split_whole (sep : char) (a : str) : ~ In sep a -> split sep a = [a].
Proof.
  induction a as [|c a IH]; intro Ha; [reflexivity|].
  simpl. destruct (N.eqb c sep) eqn:Hc.
  - apply N.eqb_eq in Hc. subst c. exfalso. apply Ha. now left.
  - rewrite IH; [reflexivity|]. intro Hin. apply Ha. now right.
Qed.

Lemma split_at (sep : char) (a rest : str) :
  ~ In sep a -> split sep (a ++ sep :: rest) = a :: split sep rest.
Proof.
  induction a as [|c a IH]; intro Ha.
  - simpl. now rewrite N.eqb_refl.
  - simpl. destruct (N.eqb c sep) eqn:Hc.
    + apply N.eqb_eq in Hc. subst c. exfalso. apply Ha. now left.
    + rewrite IH; [reflexivity|]. intro Hin. apply Ha. now right.
Qed.

Lemma split_joined (names : list str) (name before : str) :
  Forall (fun n => ~ In comma n) (name :: names) ->
  ~ In comma before ->
  split comma (before ++ join (lit ", ") (name :: names))
    = (before ++ name) :: map (fun n => 32%N :: n) names.
Proof.
  revert name before; induction names as [|next names IH]; intros name before Hnames Hbefore.
  - simpl join. simpl map. apply split_whole. inversion Hnames; subst.
    intro Hin. apply in_app_or in Hin as [Hin|Hin]; contradiction.
  - inversion Hnames as [|? ? Hname Hrest]; subst.
    change (join (lit ", ") (name :: next :: names))
      with (name ++ comma :: [32%N] ++ join (lit ", ") (next :: names)).
    rewrite app_assoc, split_at.
    + f_equal. apply (IH next [32%N] Hrest).
      intros [Hc|[]]. discriminate.
    + intro Hin. apply in_app_or in Hin as [Hin|Hin]; contradiction.
Qed.

Lemma strip_after_space (name : str) : strip name = name -> strip (32%N :: name) = name.
Proof.
  intro H. unfold strip in *. simpl lstrip. exact H.
Qed.

(** X24. Authors typed as names separated by a comma and a space, the
    names without commas and without white space at their ends, are sent
    as exactly these names, and [submit_paper] joins them into the text
    that was typed. *)
Theorem typed_authors_are_kept (title content professor_email name : str)
    (names : list str) (request : PaperSubmitRequest) :
  Forall (fun n => strip n = n /\ ~ In comma n) (name :: names) ->
  submit_form title (join (lit ", ") (name :: names)) content professor_email = Some request ->
  req_authors request = name :: names
  /\ join (lit ", ") (req_authors request) = join (lit ", ") (name :: names).
Proof.
  intros Hnames Hform.
  assert (Hlist : authors_list (join (lit ", ") (name :: names)) = name :: names).
  { unfold authors_list.
    rewrite <- (app_nil_l (join (lit ", ") (name :: names))), split_joined.
    - inversion Hnames as [|? ? [Hname _] Hrest]; subst. simpl. rewrite Hname. f_equal.
      rewrite map_map. clear - Hrest.
      induction Hrest as [|n rest [Hn _] _ IH]; [reflexivity|].
      simpl. now rewrite (strip_after_space n Hn), IH.
    - eapply Forall_impl; [|exact Hnames]. now intros n [_ Hn].
    - intros []. }
  assert (Hsent : req_authors request = authors_list (join (lit ", ") (name :: names))).
  { unfold submit_form in Hform.
    destruct (filled title && filled (join (lit ", ") (name :: names)) && filled content
              && filled professor_email); [|discriminate].
    injection Hform as <-. reflexivity. }
  rewrite Hsent, Hlist. split; reflexivity.
Qed.

Lemma typed_authors_are_kept_witness :
  exists request,
    submit_form (lit "On graphs") (lit "A. One, B. Two") (lit "Body") (lit "prof@example.org")
      = Some request
    /\ req_authors request = [lit "A. One"; lit "B. Two"].
Proof.
  eexists. split; [reflexivity|].
  apply (typed_authors_are_kept (lit "On graphs") (lit "Body") (lit "prof@example.org")
           (lit "A. One") [lit "B. Two"]).
  - repeat constructor; try (vm_compute; reflexivity);
      vm_compute; intuition discriminate.
  - reflexivity.
Defined.
